(** * earthquake_app.py: a shallow embedding and its properties

    The program is one Streamlit script.  [get_earthquake_data] fetches a
    GeoJSON feed and normalises it into a pandas DataFrame; the script then
    filters the frame by a magnitude threshold, renders metrics, a map and a
    table, and derives an hour-of-day histogram.

    Python objects are modelled by the inductive type [value], exceptions by
    the error monad [result], DataFrames by [DataFrame] objects that live in
    a store ([heap]) so that aliasing is explicit, and binary64 arithmetic by
    the executable IEEE-754 specification [SpecFloat] of the Standard
    Library.  What the script delegates to libm and to pandas on arguments
    the feed never supplies is kept abstract in the class [Runtime]. *)

From Stdlib Require Import ZArith List String Ascii Bool Lia.
From Stdlib Require Import Permutation Sorted SpecFloat.
Import ListNotations.
Local Open Scope string_scope.
Local Open Scope Z_scope.

(** ** Exceptions and the error monad *)

Inductive exn : Type :=
| KeyError | IndexError | TypeError | ValueError | OverflowError
| AttributeError | OutOfBoundsDatetime | ConnectionError | Timeout
| JSONDecodeError.

Inductive result (A : Type) : Type :=
| Ok (a : A)
| Raise (e : exn).
Arguments Ok {A} a.
Arguments Raise {A} e.

Definition bind {A B : Type} (c : result A) (k : A -> result B) : result B :=
  match c with
  | Ok a => k a
  | Raise e => Raise e
  end.

Notation "x <- c ;; k" := (bind c (fun x => k))
  (at level 61, c at next level, right associativity).

(** [for x in xs: ...] with a body that may raise: the first exception
    aborts the loop. *)
Fixpoint mapM {A B : Type} (f : A -> result B) (xs : list A) : result (list B) :=
  match xs with
  | [] => Ok []
  | x :: xs' => y <- f x ;; ys <- mapM f xs' ;; Ok (y :: ys)
  end.

(** ** Binary64 *)

Module Float64.
Definition prec : Z := 53.
Definition emax : Z := 1024.

Definition of_Z (z : Z) : spec_float := binary_normalize prec emax z 0 false.
Definition sub : spec_float -> spec_float -> spec_float := SFsub prec emax.
Definition mul : spec_float -> spec_float -> spec_float := SFmul prec emax.
Definition div : spec_float -> spec_float -> spec_float := SFdiv prec emax.

(** [x <= y] as IEEE comparison: false as soon as one side is NaN. *)
Definition leb : spec_float -> spec_float -> bool := SFleb.
Definition ltb : spec_float -> spec_float -> bool := SFltb.

Definition is_nan (x : spec_float) : bool :=
  match x with S754_nan => true | _ => false end.
Definition is_inf (x : spec_float) : bool :=
  match x with S754_infinity _ => true | _ => false end.

(** The literal [1.5]. *)
Definition one_and_half : spec_float := div (of_Z 3) (of_Z 2).
Definition one : spec_float := of_Z 1.
End Float64.

(** ** Python values

    The objects the script handles: what [json.loads] produces (None, bool,
    int, float, str, list, dict with string keys), pandas Timestamps and NaT.
    A dict is an association list in insertion order; lookup takes the
    first binding of a key. *)

#[warnings="-register-all"]
Inductive value : Type :=
| VNone
| VBool (b : bool)
| VInt (n : Z)
| VFloat (f : spec_float)
| VStr (s : string)
| VList (items : list value)
| VDict (kv : list (string * value))
| VTimestamp (ms : Z)
| VNaT.

Definition dict : Type := list (string * value).

Fixpoint lookup (k : string) (d : dict) : option value :=
  match d with
  | [] => None
  | (k', v) :: d' => if String.eqb k k' then Some v else lookup k d'
  end.

(** [d[k] = v] on a dict: replaces the binding in place or appends one. *)
Fixpoint dict_set (k : string) (v : value) (d : dict) : dict :=
  match d with
  | [] => [(k, v)]
  | (k', v') :: d' =>
      if String.eqb k k' then (k', v) :: d' else (k', v') :: dict_set k v d'
  end.

(** [obj[key]] with a string key. *)
Definition getitem (obj : value) (key : string) : result value :=
  match obj with
  | VDict kv =>
      match lookup key kv with
      | Some v => Ok v
      | None => Raise KeyError
      end
  | _ => Raise TypeError
  end.

(** [obj[i]] with a non-negative integer literal. *)
Definition getindex (obj : value) (i : nat) : result value :=
  match obj with
  | VList items =>
      match nth_error items i with
      | Some v => Ok v
      | None => Raise IndexError
      end
  | VStr s =>
      match String.get i s with
      | Some c => Ok (VStr (String c EmptyString))
      | None => Raise IndexError
      end
  | VDict _ => Raise KeyError
  | _ => Raise TypeError
  end.

(** [for item in obj]: the items a loop over [obj] visits. *)
Definition iterate (obj : value) : result (list value) :=
  match obj with
  | VList items => Ok items
  | VDict kv => Ok (map (fun p => VStr (fst p)) kv)
  | VStr s => Ok (map (fun c => VStr (String c EmptyString)) (list_ascii_of_string s))
  | _ => Raise TypeError
  end.

(** [x is not None] *)
Definition is_not_None (x : value) : bool :=
  match x with VNone => false | _ => true end.

(** ** Python arithmetic on numbers

    [bool] is a subclass of [int]; every other non-numeric operand makes an
    arithmetic operator raise [TypeError]. *)

Inductive number : Type :=
| NInt (n : Z)
| NFloat (f : spec_float).

Definition as_number (v : value) : result number :=
  match v with
  | VBool b => Ok (NInt (Z.b2z b))
  | VInt n => Ok (NInt n)
  | VFloat f => Ok (NFloat f)
  | _ => Raise TypeError
  end.

(** [float(n)] for an int: [OverflowError] when [n] is too large. *)
Definition float_of_int (n : Z) : result spec_float :=
  let f := Float64.of_Z n in
  if Float64.is_inf f then Raise OverflowError else Ok f.

(** [v - k] for an int literal [k]. *)
Definition py_sub_int (v : value) (k : Z) : result number :=
  x <- as_number v ;;
  match x with
  | NInt n => Ok (NInt (n - k))
  | NFloat f => Ok (NFloat (Float64.sub f (Float64.of_Z k)))
  end.

(** What the script takes from outside the repository and the model keeps
    abstract:
    - [c_pow]: libm's [pow] on binary64;
    - [time_string_other v]: the value of
      [pd.to_datetime(v, unit='ms').strftime('%Y-%m-%d %H:%M')], or the
      exception it raises, when [v] is not an int inside the nanosecond
      Timestamp range;
    - [to_datetime_other col]: [pd.to_datetime(col)] for a column that is
      not made of ['%Y-%m-%d %H:%M'] strings only; [None] stands for NaT. *)
Class Runtime : Type := {
  c_pow : spec_float -> spec_float -> spec_float;
  time_string_other : value -> result value;
  to_datetime_other : list value -> result (list (option Z))
}.

Section Arithmetic.
Context {rt : Runtime}.

(** [1.5 ** w] for a float [w] (CPython's [float_pow] at base 1.5: the
    special cases are decided before libm is called, and a libm result
    that overflows raises [OverflowError]). *)
Definition float_pow_1_5 (w : spec_float) : result spec_float :=
  match w with
  | S754_zero _ => Ok Float64.one
  | S754_nan => Ok S754_nan
  | S754_infinity false => Ok (S754_infinity false)
  | S754_infinity true => Ok (S754_zero false)
  | S754_finite _ _ _ =>
      let r := c_pow Float64.one_and_half w in
      if Float64.is_inf r then Raise OverflowError else Ok r
  end.

(** [1.5 ** x] *)
Definition py_pow_1_5 (x : number) : result spec_float :=
  match x with
  | NInt n => w <- float_of_int n ;; float_pow_1_5 w
  | NFloat w => float_pow_1_5 w
  end.

(** [20000 * (1.5 ** (mag - 4))] *)
Definition visual_radius (mag : value) : result value :=
  d <- py_sub_int mag 4 ;;
  p <- py_pow_1_5 d ;;
  Ok (VFloat (Float64.mul (Float64.of_Z 20000) p)).
End Arithmetic.

(** ** pandas Timestamps

    A Timestamp is kept as its number of milliseconds since the epoch (the
    feed's resolution); dates follow the proleptic Gregorian calendar. *)

Module Calendar.
(** Year, month and day of the day number [z], counted from 1970-01-01. *)
Definition civil_from_days (z : Z) : Z * Z * Z :=
  let z := z + 719468 in
  let era := z / 146097 in
  let doe := z mod 146097 in
  let yoe := (doe - doe / 1460 + doe / 36524 - doe / 146096) / 365 in
  let doy := doe - (365 * yoe + yoe / 4 - yoe / 100) in
  let mp := (5 * doy + 2) / 153 in
  let d := doy - (153 * mp + 2) / 5 + 1 in
  let m := if mp <? 10 then mp + 3 else mp - 9 in
  let y := yoe + era * 400 in
  (if m <=? 2 then y + 1 else y, m, d).

Definition days_from_civil (y m d : Z) : Z :=
  let y := if m <=? 2 then y - 1 else y in
  let era := y / 400 in
  let yoe := y mod 400 in
  let mp := if 2 <? m then m - 3 else m + 9 in
  let doy := (153 * mp + 2) / 5 + d - 1 in
  let doe := yoe * 365 + yoe / 4 - yoe / 100 + doy in
  era * 146097 + doe - 719468.

Definition is_leap (y : Z) : bool :=
  (y mod 4 =? 0) && (negb (y mod 100 =? 0) || (y mod 400 =? 0)).

Definition days_in_month (y m : Z) : Z :=
  if m =? 2 then (if is_leap y then 29 else 28)
  else if (m =? 4) || (m =? 6) || (m =? 9) || (m =? 11) then 30
  else 31.

Definition valid_date (y m d : Z) : bool :=
  (1 <=? m) && (m <=? 12) && (1 <=? d) && (d <=? days_in_month y m).
End Calendar.

Module Timestamp.
(** The ints [to_datetime(_, unit='ms')] turns into a nanosecond Timestamp:
    [Timestamp.min] is 1677-09-21 00:12:43.145224193 and [Timestamp.max] is
    2262-04-11 23:47:16.854775807. *)
Definition ms_min : Z := -9223372036854.
Definition ms_max : Z := 9223372036854.

Definition in_range (ms : Z) : bool := (ms_min <=? ms) && (ms <=? ms_max).

Definition digit (n : Z) : ascii := ascii_of_nat (48 + Z.to_nat n).

Definition pad2 (n : Z) : list ascii := [digit (n / 10); digit (n mod 10)].

Definition pad4 (n : Z) : list ascii :=
  [digit (n / 1000); digit (n / 100 mod 10); digit (n / 10 mod 10); digit (n mod 10)].

(** [ts.strftime('%Y-%m-%d %H:%M')] *)
Definition strftime_Ymd_HM (ms : Z) : string :=
  let minutes := ms / 60000 in
  let day := minutes / 1440 in
  let hm := minutes mod 1440 in
  let '(y, m, d) := Calendar.civil_from_days day in
  string_of_list_ascii
    (pad4 y ++ "-"%char :: pad2 m ++ "-"%char :: pad2 d ++ " "%char ::
     pad2 (hm / 60) ++ ":"%char :: pad2 (hm mod 60)).

Definition digit_val (c : ascii) : option Z :=
  let n := Z.of_nat (nat_of_ascii c) in
  if (48 <=? n) && (n <=? 57) then Some (n - 48) else None.

Fixpoint number_of (cs : list ascii) (acc : Z) : option Z :=
  match cs with
  | [] => Some acc
  | c :: cs' =>
      match digit_val c with
      | Some d => number_of cs' (10 * acc + d)
      | None => None
      end
  end.

(** The milliseconds since the epoch a ['%Y-%m-%d %H:%M'] string denotes,
    when its fields are those of a date and a time of day. *)
Definition decode_Ymd_HM (s : string) : option Z :=
  match list_ascii_of_string s with
  | [y1; y2; y3; y4; s1; m1; m2; s2; d1; d2; s3; h1; h2; s4; n1; n2] =>
      if Ascii.eqb s1 "-" && Ascii.eqb s2 "-" && Ascii.eqb s3 " " && Ascii.eqb s4 ":"
      then
        match number_of [y1; y2; y3; y4] 0, number_of [m1; m2] 0,
              number_of [d1; d2] 0, number_of [h1; h2] 0, number_of [n1; n2] 0 with
        | Some y, Some m, Some d, Some h, Some n =>
            if Calendar.valid_date y m d && (h <? 24) && (n <? 60)
            then Some (((Calendar.days_from_civil y m d * 24 + h) * 60 + n) * 60000)
            else None
        | _, _, _, _, _ => None
        end
      else None
  | _ => None
  end.

(** The Timestamp such a string parses to, inside the Timestamp range. *)
Definition parse_Ymd_HM (s : string) : option Z :=
  match decode_Ymd_HM s with
  | Some ms => if in_range ms then Some ms else None
  | None => None
  end.

(** [ts.hour] *)
Definition hour (ms : Z) : Z := (ms / 3600000) mod 24.
End Timestamp.

(** [pd.to_datetime(v, unit='ms')] where the model decides it. *)
Definition to_datetime_ms (v : value) : option Z :=
  match v with
  | VInt ms => if Timestamp.in_range ms then Some ms else None
  | _ => None
  end.

Fixpoint sequence {A : Type} (xs : list (option A)) : option (list A) :=
  match xs with
  | [] => Some []
  | None :: _ => None
  | Some x :: xs' =>
      match sequence xs' with
      | Some ys => Some (x :: ys)
      | None => None
      end
  end.

Definition parse_cell (v : value) : option Z :=
  match v with
  | VStr s => Timestamp.parse_Ymd_HM s
  | _ => None
  end.

Section Datetime.
Context {rt : Runtime}.

(** [pd.to_datetime(v, unit='ms').strftime('%Y-%m-%d %H:%M')] *)
Definition time_string (v : value) : result value :=
  match to_datetime_ms v with
  | Some ts => Ok (VStr (Timestamp.strftime_Ymd_HM ts))
  | None => time_string_other v
  end.

(** [pd.to_datetime(col)] on a column of cells; [None] is NaT. *)
Definition to_datetime (col : list value) : result (list (option Z)) :=
  match sequence (map parse_cell col) with
  | Some ts => Ok (map Some ts)
  | None => to_datetime_other col
  end.
End Datetime.

(** ** pandas DataFrames

    A frame is its column labels and its rows, each row a dict from column
    label to cell; row labels are not modelled. *)

Record DataFrame : Type := {
  columns : list string;
  rows : list dict
}.

Definition has_column (c : string) (cols : list string) : bool :=
  existsb (String.eqb c) cols.

Fixpoint add_columns (cols : list string) (keys : list string) : list string :=
  match keys with
  | [] => cols
  | k :: keys' =>
      add_columns (if has_column k cols then cols else cols ++ [k]) keys'
  end.

(** [pd.DataFrame()] *)
Definition DataFrame_empty : DataFrame := {| columns := []; rows := [] |}.

(** [pd.DataFrame(records)] for a list of dicts: the columns are the keys
    of the records in order of first appearance. *)
Definition DataFrame_of_records (records : list dict) : DataFrame :=
  {| columns := fold_left (fun cols r => add_columns cols (map fst r)) records [];
     rows := records |}.

(** A cell of a row; a key the row lacks reads as NaN. *)
Definition cell (c : string) (r : dict) : value :=
  match lookup c r with
  | Some v => v
  | None => VFloat S754_nan
  end.

(** [df[c]] *)
Definition getcol (df : DataFrame) (c : string) : result (list value) :=
  if has_column c (columns df) then Ok (map (cell c) (rows df))
  else Raise KeyError.

(** [x >= t] for a cell [x] and a float [t]; ints are compared as float64. *)
Definition ge_float (x : value) (t : spec_float) : result bool :=
  n <- as_number x ;;
  match n with
  | NInt k => Ok (Float64.leb t (Float64.of_Z k))
  | NFloat f => Ok (Float64.leb t f)
  end.

(** [series >= t] *)
Definition series_ge (col : list value) (t : spec_float) : result (list bool) :=
  mapM (fun x => ge_float x t) col.

Fixpoint select_rows (rs : list dict) (mask : list bool) : list dict :=
  match rs, mask with
  | r :: rs', b :: mask' =>
      if b then r :: select_rows rs' mask' else select_rows rs' mask'
  | _, _ => []
  end.

(** [df[mask]] for a boolean series: a new frame. *)
Definition select (df : DataFrame) (mask : list bool) : DataFrame :=
  {| columns := columns df; rows := select_rows (rows df) mask |}.

(** [df[[c1, ..., cn]]]: a new frame with these columns. *)
Definition select_columns (df : DataFrame) (cs : list string) : result DataFrame :=
  if forallb (fun c => has_column c (columns df)) cs
  then Ok {| columns := cs;
             rows := map (fun r => map (fun c => (c, cell c r)) cs) (rows df) |}
  else Raise KeyError.

Fixpoint set_cells (c : string) (rs : list dict) (col : list value) : list dict :=
  match rs, col with
  | r :: rs', v :: col' => dict_set c v r :: set_cells c rs' col'
  | _, _ => []
  end.

(** The frame after [df[c] = col]. *)
Definition setcol (df : DataFrame) (c : string) (col : list value) : result DataFrame :=
  if Nat.eqb (List.length col) (List.length (rows df))
  then Ok {| columns := if has_column c (columns df) then columns df
                        else columns df ++ [c];
             rows := set_cells c (rows df) col |}
  else Raise ValueError.

(** [df.empty] *)
Definition empty (df : DataFrame) : bool :=
  match columns df, rows df with
  | [], _ | _, [] => true
  | _, _ => false
  end.

(** [series.max()]: NaN cells are skipped; NaN when nothing is left. *)
Definition float_of_number (n : number) : spec_float :=
  match n with
  | NInt k => Float64.of_Z k
  | NFloat f => f
  end.

Fixpoint series_max_from (best : option (value * spec_float)) (col : list value)
  : result value :=
  match col with
  | [] => Ok match best with Some (v, _) => v | None => VFloat S754_nan end
  | x :: col' =>
      n <- as_number x ;;
      let f := float_of_number n in
      if Float64.is_nan f then series_max_from best col'
      else match best with
           | Some (_, fb) =>
               if Float64.ltb fb f then series_max_from (Some (x, f)) col'
               else series_max_from best col'
           | None => series_max_from (Some (x, f)) col'
           end
  end.

Definition series_max (col : list value) : result value := series_max_from None col.

(** [series.dt.hour] *)
Definition dt_hour_cell (x : value) : result value :=
  match x with
  | VTimestamp ms => Ok (VInt (Timestamp.hour ms))
  | VNaT => Ok (VFloat S754_nan)
  | _ => Raise AttributeError
  end.

Definition dt_hour (col : list value) : result (list value) := mapM dt_hour_cell col.

(** Sorting by insertion, for [value_counts] and [sort_index]. *)
Fixpoint insert_by {A : Type} (le : A -> A -> bool) (x : A) (l : list A) : list A :=
  match l with
  | [] => [x]
  | y :: l' => if le x y then x :: l else y :: insert_by le x l'
  end.

Fixpoint sort_by {A : Type} (le : A -> A -> bool) (l : list A) : list A :=
  match l with
  | [] => []
  | x :: l' => insert_by le x (sort_by le l')
  end.

Fixpoint count_add (k : Z) (counts : list (Z * nat)) : list (Z * nat) :=
  match counts with
  | [] => [(k, 1%nat)]
  | (k', n) :: counts' =>
      if k =? k' then (k', S n) :: counts' else (k', n) :: count_add k counts'
  end.

(** The distinct int cells of a column with their numbers of occurrences,
    in order of first appearance; NaN cells are dropped. *)
Fixpoint tally (col : list value) (counts : list (Z * nat)) : list (Z * nat) :=
  match col with
  | [] => counts
  | VInt k :: col' => tally col' (count_add k counts)
  | _ :: col' => tally col' counts
  end.

(** [series.value_counts()]: most frequent first. *)
Definition value_counts (col : list value) : list (Z * nat) :=
  sort_by (fun a b => Nat.leb (snd b) (snd a)) (tally col []).

(** [counts.sort_index()] *)
Definition sort_index (counts : list (Z * nat)) : list (Z * nat) :=
  sort_by (fun a b => fst a <=? fst b) counts.

(** ** The store and the page

    DataFrames are mutable objects: a variable of the script holds a
    reference into [heap], and [df[c] = col] updates the object in place.
    The Streamlit calls of the script are recorded in [ui], oldest first. *)

Definition ref : Type := nat.

Inductive ui_event : Type :=
| st_error (e : exn)
| st_title (min_mag : spec_float)
| st_metric_count (n : nat)
| st_metric_max (v : value)
| st_metric_threshold (min_mag : spec_float)
| st_pydeck_chart (data : list dict)
| st_warning
| st_dataframe (table : DataFrame)
| st_bar_chart (counts : list (Z * nat))
| st_info.

Record state : Type := {
  heap : list DataFrame;
  ui : list ui_event
}.

(** A computation of the script: it leaves a state behind whether it
    returns or raises. *)
Definition M (A : Type) : Type := state -> result A * state.

Definition ret {A : Type} (a : A) : M A := fun s => (Ok a, s).

Definition mbind {A B : Type} (c : M A) (k : A -> M B) : M B :=
  fun s =>
    match c s with
    | (Ok a, s') => k a s'
    | (Raise e, s') => (Raise e, s')
    end.

Notation "'let*' x ':=' c 'in' k" := (mbind c (fun x => k))
  (at level 10, x name, c at level 100, k at level 200).
Notation "c ';;;' k" := (mbind c (fun _ => k))
  (at level 62, right associativity).

Definition lift {A : Type} (c : result A) : M A := fun s => (c, s).

Definition emit (e : ui_event) : M unit :=
  fun s => (Ok tt, {| heap := heap s; ui := ui s ++ [e] |}).

(** A new object on the heap. *)
Definition new (df : DataFrame) : M ref :=
  fun s => (Ok (List.length (heap s)), {| heap := heap s ++ [df]; ui := ui s |}).

Definition get (r : ref) : M DataFrame :=
  fun s => (Ok (nth r (heap s) DataFrame_empty), s).

Fixpoint replace_nth {A : Type} (n : nat) (x : A) (l : list A) : list A :=
  match n, l with
  | _, [] => []
  | O, _ :: l' => x :: l'
  | S n', y :: l' => y :: replace_nth n' x l'
  end.

(** In-place update of the object behind [r]. *)
Definition put (r : ref) (df : DataFrame) : M unit :=
  fun s => (Ok tt, {| heap := replace_nth r df (heap s); ui := ui s |}).

(** ** The feed *)

(** A [requests.Response]: its status and what [response.json()] does. *)
Record response : Type := {
  status_code : Z;
  json : result value
}.

Definition datetime_cell (t : option Z) : value :=
  match t with
  | Some ms => VTimestamp ms
  | None => VNaT
  end.

Section App.
Context {rt : Runtime}.

(** The dict appended for one feature (lines 23-31); [mag] is the feature's
    magnitude, already read. *)
Definition make_record (item mag : value) : result dict :=
  geometry <- getitem item "geometry" ;;
  coordinates <- getitem geometry "coordinates" ;;
  lat <- getindex coordinates 1 ;;
  geometry <- getitem item "geometry" ;;
  coordinates <- getitem geometry "coordinates" ;;
  lon <- getindex coordinates 0 ;;
  properties <- getitem item "properties" ;;
  place <- getitem properties "place" ;;
  properties <- getitem item "properties" ;;
  t <- getitem properties "time" ;;
  time <- time_string t ;;
  radius <- visual_radius mag ;;
  Ok [("lat", lat); ("lon", lon); ("mag", mag); ("place", place);
      ("time", time); ("radius", radius)].

(** The loop of lines 19-31 over the features still to visit, with the
    records appended so far. *)
Fixpoint parse_loop (features : list value) (parsed_data : list dict)
  : result (list dict) :=
  match features with
  | [] => Ok parsed_data
  | item :: features' =>
      properties <- getitem item "properties" ;;
      mag <- getitem properties "mag" ;;
      if is_not_None mag then
        record <- make_record item mag ;;
        parse_loop features' (parsed_data ++ [record])
      else parse_loop features' parsed_data
  end.

(** The body of the [try] (lines 14-32); [fetch] is what
    [requests.get(url, timeout=10)] does. *)
Definition fetch_and_parse (fetch : result response) : result DataFrame :=
  response <- fetch ;;
  json_data <- json response ;;
  features <- getitem json_data "features" ;;
  items <- iterate features ;;
  parsed_data <- parse_loop items [] ;;
  Ok (DataFrame_of_records parsed_data).

(** [get_earthquake_data()] (lines 11-35).  [st.cache_data] hands every run
    a frame of its own, so a call allocates one. *)
Definition get_earthquake_data (fetch : result response) : M ref :=
  match fetch_and_parse fetch with
  | Ok df => new df
  | Raise e => emit (st_error e) ;;; new DataFrame_empty
  end.

(** [df[df['mag'] >= min_mag]] (line 54) *)
Definition filter_by_magnitude (df : DataFrame) (min_mag : spec_float)
  : result DataFrame :=
  mag <- getcol df "mag" ;;
  mask <- series_ge mag min_mag ;;
  Ok (select df mask).

(** The three metrics (lines 60-63). *)
Definition metrics (filtered_df : ref) (min_mag : spec_float) : M unit :=
  let* f := get filtered_df in
  emit (st_metric_count (List.length (rows f))) ;;;
  let* top :=
    if negb (empty f) then (let* mag := lift (getcol f "mag") in lift (series_max mag))
    else ret (VInt 0) in
  emit (st_metric_max top) ;;;
  emit (st_metric_threshold min_mag).

(** The map or the warning (lines 66-93). *)
Definition map_layer (filtered_df : ref) : M unit :=
  let* f := get filtered_df in
  if negb (empty f) then emit (st_pydeck_chart (rows f))
  else emit st_warning.

(** The table (lines 96-97). *)
Definition data_table (filtered_df : ref) : M unit :=
  let* f := get filtered_df in
  let* table := lift (select_columns f ["time"; "place"; "mag"; "lat"; "lon"]) in
  emit (st_dataframe table).

(** The histogram (lines 105-120): [Some hourly_counts] when it is drawn. *)
Definition time_distribution (filtered_df : ref) : M (option (list (Z * nat))) :=
  let* f := get filtered_df in
  if negb (empty f) then
    let* time := lift (getcol f "time") in
    let* datetime := lift (to_datetime time) in
    let* f' := lift (setcol f "datetime" (map datetime_cell datetime)) in
    put filtered_df f' ;;;
    let* f := get filtered_df in
    let* datetime := lift (getcol f "datetime") in
    let* hour := lift (dt_hour datetime) in
    let* f' := lift (setcol f "hour" hour) in
    put filtered_df f' ;;;
    let* f := get filtered_df in
    let* hour := lift (getcol f "hour") in
    let hourly_counts := sort_index (value_counts hour) in
    emit (st_bar_chart hourly_counts) ;;;
    ret (Some hourly_counts)
  else
    emit st_info ;;; ret None.

(** Lines 54-120, for the frame behind [df]. *)
Definition process (df : ref) (min_mag : spec_float)
  : M (ref * option (list (Z * nat))) :=
  let* d := get df in
  let* filtered := lift (filter_by_magnitude d min_mag) in
  let* filtered_df := new filtered in
  emit (st_title min_mag) ;;;
  metrics filtered_df min_mag ;;;
  map_layer filtered_df ;;;
  data_table filtered_df ;;;
  let* hourly_counts := time_distribution filtered_df in
  ret (filtered_df, hourly_counts).

(** One run of the script. *)
Definition script (fetch : result response) (min_mag : spec_float)
  : M (ref * ref * option (list (Z * nat))) :=
  let* df := get_earthquake_data fetch in
  let* out := process df min_mag in
  ret (df, fst out, snd out).
End App.

Definition initial_state : state := {| heap := []; ui := [] |}.

(** The frame [get_earthquake_data()] returns. *)
Definition fetched_frame {rt : Runtime} (fetch : result response) : DataFrame :=
  match fetch_and_parse fetch with
  | Ok df => df
  | Raise _ => DataFrame_empty
  end.

(** ** Vocabulary of the properties *)

(** [item['properties']['mag']] *)
Definition feature_mag (item : value) : result value :=
  properties <- getitem item "properties" ;;
  getitem properties "mag".

(** [item['properties']['time']] *)
Definition feature_time (item : value) : result value :=
  properties <- getitem item "properties" ;;
  getitem properties "time".

(** [item['geometry']['coordinates']] *)
Definition feature_coordinates (item : value) : result value :=
  geometry <- getitem item "geometry" ;;
  getitem geometry "coordinates".

(** [item['properties']['place']] *)
Definition feature_place (item : value) : result value :=
  properties <- getitem item "properties" ;;
  getitem properties "place".

(** The feature carries a magnitude that is not null. *)
Definition has_magnitude (item : value) : bool :=
  match feature_mag item with
  | Ok mag => is_not_None mag
  | Raise _ => false
  end.

(** The record [r] is the one the loop appends for [item]. *)
Definition materialises {rt : Runtime} (item : value) (r : dict) : Prop :=
  exists mag,
    feature_mag item = Ok mag /\ mag <> VNone /\ make_record item mag = Ok r.

(** The items of the feed a response carries. *)
Definition document_items (doc : value) : result (list value) :=
  features <- getitem doc "features" ;;
  iterate features.

(** A field the normaliser reads from a feature is missing. *)
Definition missing_field (item : value) : Prop :=
  (exists e, feature_mag item = Raise e) \/
  (has_magnitude item = true /\
   ((exists e, feature_coordinates item = Raise e) \/
    (exists c e, feature_coordinates item = Ok c /\
                 (getindex c 0 = Raise e \/ getindex c 1 = Raise e)) \/
    (exists e, feature_place item = Raise e) \/
    (exists e, feature_time item = Raise e))).

(** The failures of data acquisition the fetcher turns into an empty frame:
    the request raises (network error, timeout), the body is not JSON, or
    an expected field is missing. *)
Inductive acquisition_failure : result response -> Prop :=
| request_failed (e : exn) : acquisition_failure (Raise e)
| decode_failed (r : response) (e : exn) :
    json r = Raise e -> acquisition_failure (Ok r)
| features_missing (r : response) (doc : value) (e : exn) :
    json r = Ok doc -> document_items doc = Raise e ->
    acquisition_failure (Ok r)
| field_missing (r : response) (doc : value) (items : list value) (item : value) :
    json r = Ok doc -> document_items doc = Ok items ->
    In item items -> missing_field item ->
    acquisition_failure (Ok r).

Definition non_2xx (r : response) : bool :=
  (status_code r <? 200) || (300 <=? status_code r).

(** The failures as the specification lists them: the above, or a response
    whose status is not 2xx. *)
Definition listed_failure (fetch : result response) : Prop :=
  acquisition_failure fetch \/
  (exists r, fetch = Ok r /\ non_2xx r = true).

(** The start of the minute [ms] falls in. *)
Definition minute_floor (ms : Z) : Z := 60000 * (ms / 60000).

Definition is_digit (c : ascii) : bool :=
  match Timestamp.digit_val c with Some _ => true | None => false end.

(** The shape [dddd-dd-dd dd:dd]. *)
Definition fixed_pattern (s : string) : bool :=
  match list_ascii_of_string s with
  | [y1; y2; y3; y4; s1; m1; m2; s2; d1; d2; s3; h1; h2; s4; n1; n2] =>
      forallb is_digit [y1; y2; y3; y4; m1; m2; d1; d2; h1; h2; n1; n2]
      && Ascii.eqb s1 "-" && Ascii.eqb s2 "-" && Ascii.eqb s3 " " && Ascii.eqb s4 ":"
  | _ => false
  end.

(** The magnitude of a row as a float, when it is a number. *)
Definition row_magnitude (r : dict) : option spec_float :=
  match as_number (cell "mag" r) with
  | Ok n => Some (float_of_number n)
  | Raise _ => None
  end.

Definition numeric (r : dict) : bool :=
  match row_magnitude r with Some _ => true | None => false end.

(** The row passes the threshold: its magnitude is a number [>= t]. *)
Definition passes (t : spec_float) (r : dict) : bool :=
  match row_magnitude r with
  | Some f => Float64.leb t f
  | None => false
  end.

(** The [time] cell of every row is the minute string of a Timestamp whose
    minute starts inside the Timestamp range. *)
Definition minute_stamped (df : DataFrame) : Prop :=
  Forall (fun r => exists ms,
            Timestamp.in_range ms = true /\
            Timestamp.in_range (minute_floor ms) = true /\
            lookup "time" r = Some (VStr (Timestamp.strftime_Ymd_HM ms)))
         (rows df).

(** The computation leaves the object behind [r] as it is, and every other
    object in its place. *)
Definition frames {A : Type} (r : ref) (c : M A) : Prop :=
  forall s, (r < List.length (heap s))%nat ->
    nth_error (heap (snd (c s))) r = nth_error (heap s) r /\
    (List.length (heap s) <= List.length (heap (snd (c s))))%nat.

Fixpoint total (counts : list (Z * nat)) : nat :=
  match counts with
  | [] => O
  | (_, n) :: counts' => (n + total counts')%nat
  end.

(** The feature makes the loop raise [e]: reading its magnitude does, or
    building its record does. *)
Definition feature_raises {rt : Runtime} (item : value) (e : exn) : Prop :=
  feature_mag item = Raise e \/
  exists mag,
    feature_mag item = Ok mag /\ mag <> VNone /\ make_record item mag = Raise e.

(** The feature is one the loop gets through: its magnitude can be read,
    and when the magnitude is not null the feature has its two coordinates,
    its place and its time, the time converts to a string and the radius
    can be computed. *)
Definition well_formed_feature {rt : Runtime} (item : value) : Prop :=
  exists mag,
    feature_mag item = Ok mag /\
    (mag = VNone \/
     exists coordinates lat lon place t time radius,
       feature_coordinates item = Ok coordinates /\
       getindex coordinates 1 = Ok lat /\
       getindex coordinates 0 = Ok lon /\
       feature_place item = Ok place /\
       feature_time item = Ok t /\
       time_string t = Ok time /\
       visual_radius mag = Ok radius).

(** The keys of a record, in the order of lines 24-30. *)
Definition record_keys : list string :=
  ["lat"; "lon"; "mag"; "place"; "time"; "radius"].

(** The [time] cell of [r] is the minute string of the Timestamp [ms], whose
    minute starts inside the Timestamp range. *)
Definition stamped (r : dict) (ms : Z) : Prop :=
  Timestamp.in_range ms = true /\
  Timestamp.in_range (minute_floor ms) = true /\
  lookup "time" r = Some (VStr (Timestamp.strftime_Ymd_HM ms)).

(** The time of the feature is such an epoch millisecond. *)
Definition epoch_time (item : value) : Prop :=
  exists ms,
    feature_time item = Ok (VInt ms) /\
    Timestamp.in_range ms = true /\
    Timestamp.in_range (minute_floor ms) = true.

(** The count a histogram gives for the hour [k]; 0 without a bucket. *)
Fixpoint count_of (k : Z) (counts : list (Z * nat)) : nat :=
  match counts with
  | [] => O
  | (k', n) :: counts' => if k =? k' then n else count_of k counts'
  end.

(** What the page shows for a filtered frame (lines 57-120). *)
Definition page (min_mag : spec_float) (f : DataFrame) (top : value)
    (table : DataFrame) (hourly_counts : list (Z * nat)) : list ui_event :=
  [st_title min_mag;
   st_metric_count (List.length (rows f));
   st_metric_max top;
   st_metric_threshold min_mag;
   if empty f then st_warning else st_pydeck_chart (rows f);
   st_dataframe table;
   if empty f then st_info else st_bar_chart hourly_counts].

(** ** Sample data *)

Module Sample.
(** The decimal literal [n/d]. *)
Definition decimal (n d : Z) : spec_float := Float64.div (Float64.of_Z n) (Float64.of_Z d).

Definition integral (w : spec_float) : option Z :=
  match w with
  | S754_zero _ => Some 0
  | S754_finite s m e =>
      let v := if 0 <=? e then Some (Zpos m * 2 ^ e)
               else if Zpos m mod 2 ^ (- e) =? 0 then Some (Zpos m / 2 ^ (- e))
               else None in
      option_map (fun k => if s then - k else k) v
  | _ => None
  end.

Fixpoint pow_nat (x : spec_float) (n : nat) : spec_float :=
  match n with
  | O => Float64.one
  | S n' => Float64.mul x (pow_nat x n')
  end.

(** Powers with an integral exponent by repeated multiplication; NaN
    elsewhere. *)
Definition pow_integral (x w : spec_float) : spec_float :=
  match integral w with
  | Some k =>
      if 0 <=? k then pow_nat x (Z.to_nat k)
      else Float64.div Float64.one (pow_nat x (Z.to_nat (- k)))
  | None => S754_nan
  end.

(** A runtime to run the model on examples: [pow_integral] for libm, and a
    pandas that rejects whatever the model leaves to it. *)
Definition runtime : Runtime :=
  {| c_pow := pow_integral;
     time_string_other := fun _ => Raise ValueError;
     to_datetime_other := fun _ => Raise ValueError |}.

Definition feature (mag : value) (lon lat : value) (place : string) (time : Z) : value :=
  VDict [("type", VStr "Feature");
         ("properties", VDict [("mag", mag); ("place", VStr place); ("time", VInt time)]);
         ("geometry", VDict [("type", VStr "Point");
                             ("coordinates", VList [lon; lat; VFloat (decimal 10 1)])])].

Definition quake_a : value :=
  feature (VInt 5) (VFloat (decimal 10 1)) (VFloat (decimal 20 1)) "A" 1700000000123.
Definition quake_null : value :=
  feature VNone (VFloat (decimal 1 1)) (VFloat (decimal 2 1)) "B" 1700000100000.
Definition quake_c : value :=
  feature (VFloat (decimal 6 1)) (VFloat (decimal (-30) 1)) (VFloat (decimal 45 1)) "C" 1700003600000.
Definition quake_d : value :=
  feature (VInt 3) (VFloat (decimal 7 1)) (VFloat (decimal 8 1)) "D" 1700000050000.

(** The feature of the specification's example: coordinates [[10.0, 20.0]]. *)
Definition quake_pair : value :=
  VDict [("properties", VDict [("mag", VInt 4); ("place", VStr "P"); ("time", VInt 0)]);
         ("geometry", VDict [("coordinates",
                              VList [VFloat (decimal 10 1); VFloat (decimal 20 1)])])].

(** A feature with a magnitude and nothing else. *)
Definition quake_malformed : value :=
  VDict [("properties", VDict [("mag", VInt 3)])].

Definition document (features : list value) : value :=
  VDict [("type", VStr "FeatureCollection"); ("features", VList features)].

Definition ok_response (doc : value) : result response :=
  Ok {| status_code := 200; json := Ok doc |}.

Definition feed : result response :=
  ok_response (document [quake_a; quake_null; quake_c; quake_d]).

(** The feed with no event. *)
Definition quiet_feed : result response := ok_response (document []).

(** A well-formed feed in the body of a 503 response. *)
Definition feed_503 : result response :=
  Ok {| status_code := 503; json := Ok (document [quake_a]) |}.

Definition malformed_feed : result response :=
  ok_response (document [quake_a; quake_malformed]).

(** The slider's default, [4.5]. *)
Definition default_min_mag : spec_float := decimal 45 10.

(** The frame of [feed], its rows of magnitude 4.5 and more, and a store
    that holds both. *)
Definition frame : DataFrame := fetched_frame (rt := runtime) feed.

Definition filtered : DataFrame :=
  {| columns := columns frame;
     rows := filter (passes default_min_mag) (rows frame) |}.

Definition store : state := {| heap := [frame; filtered]; ui := [] |}.
(** A feature with a null magnitude and nothing else. *)
Definition quake_bare_null : value :=
  VDict [("properties", VDict [("mag", VNone)])].

(** A feature whose magnitude is the string ["5.1"]. *)
Definition quake_text : value :=
  feature (VStr "5.1") (VFloat (decimal 3 1)) (VFloat (decimal 4 1)) "T" 1700000000000.

(** A feature whose magnitude is NaN. *)
Definition quake_nan : value :=
  feature (VFloat S754_nan) (VFloat (decimal 3 1)) (VFloat (decimal 4 1)) "N" 1700000000000.
End Sample.

(** * Properties *)

(** ** The error monad *)

Lemma bind_Ok {A B : Type} (c : result A) (k : A -> result B) (b : B) :
  bind c k = Ok b -> exists a, c = Ok a /\ k a = Ok b.
Proof.
  destruct c as [a | e]; simpl; intros H.
  - exists a. split; [reflexivity | exact H].
  - discriminate H.
Qed.

Lemma bind_Raise {A B : Type} (c : result A) (k : A -> result B) (e : exn) :
  c = Raise e -> bind c k = Raise e.
Proof. intros ->. reflexivity. Qed.

(** ** Calendar *)

Module CalendarFacts.
Import Calendar.

Ltac divisions := Z.div_mod_to_equations; lia.

(** The year and the day of the year inside a 400-year era. *)
Lemma year_of_era doe :
  0 <= doe < 146097 ->
  let yoe := (doe - doe / 1460 + doe / 36524 - doe / 146096) / 365 in
  let doy := doe - (365 * yoe + yoe / 4 - yoe / 100) in
  0 <= yoe <= 399 /\ 0 <= doy <= 365 /\
  (doy <= 364 \/ is_leap (yoe + 1) = true).
Proof.
  intros H yoe doy. subst doy yoe. unfold is_leap.
  repeat split; divisions.
Qed.

Lemma is_leap_era y era : is_leap (y + era * 400) = is_leap y.
Proof.
  unfold is_leap.
  replace ((y + era * 400) mod 4) with (y mod 4) by divisions.
  replace ((y + era * 400) mod 100) with (y mod 100) by divisions.
  replace ((y + era * 400) mod 400) with (y mod 400) by divisions.
  reflexivity.
Qed.

(** [civil_from_days] yields a date of the calendar, and
    [days_from_civil] leads back from it. *)
Lemma civil_from_days_spec z :
  let '(y, m, d) := civil_from_days z in
  valid_date y m d = true /\ days_from_civil y m d = z.
Proof.
  unfold civil_from_days, days_from_civil, valid_date.
  set (z' := z + 719468).
  set (era := z' / 146097). set (doe := z' mod 146097).
  set (yoe := (doe - doe / 1460 + doe / 36524 - doe / 146096) / 365).
  set (doy := doe - (365 * yoe + yoe / 4 - yoe / 100)).
  set (mp := (5 * doy + 2) / 153).
  assert (Hz : z + 719468 = 146097 * era + doe)
    by (subst era doe; apply Z.div_mod; lia).
  assert (Hdoe : 0 <= doe < 146097) by (subst doe; apply Z.mod_pos_bound; lia).
  destruct (year_of_era doe Hdoe) as (Hyoe & Hdoy & Hleap).
  fold yoe in Hyoe, Hdoy, Hleap. fold doy in Hdoy, Hleap.
  assert (Hmp : 0 <= mp <= 11) by (subst mp; clearbody doy; divisions).
  assert (Hd : 1 <= doy - (153 * mp + 2) / 5 + 1 <= 31)
    by (subst mp; clearbody doy; divisions).
  assert (Hera : forall k, 0 <= k <= 399 ->
            (k + era * 400) / 400 = era /\ (k + era * 400) mod 400 = k)
    by (intros k Hk; divisions).
  clearbody doe era yoe.
  destruct (mp <? 10) eqn:E1; [apply Z.ltb_lt in E1 | apply Z.ltb_ge in E1].
  - destruct (mp + 3 <=? 2) eqn:E2; [apply Z.leb_le in E2; lia |].
    destruct (2 <? mp + 3) eqn:E3; [| apply Z.ltb_ge in E3; lia].
    destruct (Hera yoe Hyoe) as [-> ->].
    split.
    + unfold days_in_month.
      assert (Hm : mp = 0 \/ mp = 1 \/ mp = 2 \/ mp = 3 \/ mp = 4 \/ mp = 5 \/
                   mp = 6 \/ mp = 7 \/ mp = 8 \/ mp = 9) by lia.
      subst mp. clearbody doy.
      repeat (destruct Hm as [Hm | Hm]); rewrite Hm in *; simpl;
        rewrite !andb_true_iff, !Z.leb_le; divisions.
    + replace (mp + 3 - 3) with mp by lia. subst doy. lia.
  - assert (Hm : mp = 10 \/ mp = 11) by lia.
    destruct (mp - 9 <=? 2) eqn:E2; [| apply Z.leb_gt in E2; lia].
    destruct (2 <? mp - 9) eqn:E3; [apply Z.ltb_lt in E3; lia |].
    replace (yoe + era * 400 + 1 - 1) with (yoe + era * 400) by lia.
    destruct (Hera yoe Hyoe) as [-> ->].
    split.
    + unfold days_in_month.
      replace (yoe + era * 400 + 1) with ((yoe + 1) + era * 400) by lia.
      rewrite is_leap_era.
      subst mp.
      destruct Hm as [Hm | Hm]; rewrite Hm in *; simpl.
      * rewrite !andb_true_iff, !Z.leb_le. clearbody doy. divisions.
      * destruct Hleap as [Hleap | Hleap].
        -- destruct (is_leap (yoe + 1));
             rewrite !andb_true_iff, !Z.leb_le; clearbody doy; divisions.
        -- rewrite Hleap. rewrite !andb_true_iff, !Z.leb_le. clearbody doy. divisions.
    + replace (mp - 9 + 9) with mp by lia. subst doy. lia.
Qed.

(** The years of the Timestamp range have four digits. *)
Lemma civil_from_days_year z :
  -106752 <= z <= 106751 ->
  let '(y, _, _) := civil_from_days z in 1677 <= y <= 2262.
Proof.
  intros Hz. unfold civil_from_days.
  set (z' := z + 719468).
  set (era := z' / 146097). set (doe := z' mod 146097).
  set (yoe := (doe - doe / 1460 + doe / 36524 - doe / 146096) / 365).
  set (doy := doe - (365 * yoe + yoe / 4 - yoe / 100)).
  set (mp := (5 * doy + 2) / 153).
  assert (Hdoe : 0 <= doe < 146097) by (subst doe; apply Z.mod_pos_bound; lia).
  destruct (year_of_era doe Hdoe) as (Hyoe & Hdoy & _).
  fold yoe in Hyoe, Hdoy. fold doy in Hdoy.
  assert (Hmp : 0 <= mp <= 11) by (subst mp; clearbody doy; divisions).
  assert (Hy : 1677 <= yoe + era * 400 <= 2262 /\
               (yoe + era * 400 = 2262 -> mp <= 9)).
  { subst mp doy yoe doe era z'. divisions. }
  destruct (mp <? 10) eqn:E1; [apply Z.ltb_lt in E1 | apply Z.ltb_ge in E1].
  - destruct (mp + 3 <=? 2) eqn:E2; [apply Z.leb_le in E2; lia | lia].
  - destruct (mp - 9 <=? 2) eqn:E2; [| apply Z.leb_gt in E2; lia].
    destruct Hy as (Hy & Hy').
    assert (yoe + era * 400 <> 2262) by (intros E; apply Hy' in E; lia).
    lia.
Qed.
End CalendarFacts.

(** ** Timestamps and their minute strings *)

Module TimestampFacts.
Import Timestamp.

Lemma digit_val_digit k : 0 <= k <= 9 -> digit_val (digit k) = Some k.
Proof.
  intros H.
  assert (E : k = 0 \/ k = 1 \/ k = 2 \/ k = 3 \/ k = 4 \/ k = 5 \/ k = 6 \/
              k = 7 \/ k = 8 \/ k = 9) by lia.
  repeat (destruct E as [E | E]); subst k; reflexivity.
Qed.

Lemma is_digit_digit k : 0 <= k <= 9 -> is_digit (digit k) = true.
Proof. intros H. unfold is_digit. rewrite digit_val_digit by exact H. reflexivity. Qed.

Lemma number_of_2 n :
  0 <= n < 100 -> number_of [digit (n / 10); digit (n mod 10)] 0 = Some n.
Proof.
  intros H. cbn [number_of].
  rewrite !digit_val_digit by CalendarFacts.divisions.
  f_equal. CalendarFacts.divisions.
Qed.

Lemma number_of_4 n :
  0 <= n < 10000 ->
  number_of [digit (n / 1000); digit (n / 100 mod 10);
             digit (n / 10 mod 10); digit (n mod 10)] 0 = Some n.
Proof.
  intros H. cbn [number_of].
  rewrite !digit_val_digit by CalendarFacts.divisions.
  f_equal. CalendarFacts.divisions.
Qed.

(** The fields of the minute string of a Timestamp, as the calendar gives
    them. *)
Lemma strftime_fields ms :
  in_range ms = true ->
  exists y m d h n,
    strftime_Ymd_HM ms =
      string_of_list_ascii
        (pad4 y ++ "-"%char :: pad2 m ++ "-"%char :: pad2 d ++ " "%char ::
         pad2 h ++ ":"%char :: pad2 n) /\
    1677 <= y <= 2262 /\ Calendar.valid_date y m d = true /\
    0 <= h < 24 /\ 0 <= n < 60 /\
    ((Calendar.days_from_civil y m d * 24 + h) * 60 + n) * 60000 = minute_floor ms.
Proof.
  unfold in_range, ms_min, ms_max. rewrite andb_true_iff, !Z.leb_le. intros Hms.
  unfold strftime_Ymd_HM, minute_floor.
  set (minutes := ms / 60000).
  assert (Hday : -106752 <= minutes / 1440 <= 106751)
    by (subst minutes; CalendarFacts.divisions).
  pose proof (CalendarFacts.civil_from_days_spec (minutes / 1440)) as Hc.
  pose proof (CalendarFacts.civil_from_days_year (minutes / 1440) Hday) as Hy.
  destruct (Calendar.civil_from_days (minutes / 1440)) as [[y m] d].
  destruct Hc as [Hv Hr].
  exists y, m, d, (minutes mod 1440 / 60), (minutes mod 1440 mod 60).
  split; [reflexivity |].
  split; [exact Hy |]. split; [exact Hv |].
  rewrite Hr. clearbody minutes. clear. repeat split; CalendarFacts.divisions.
Qed.

Lemma valid_date_bounds y m d :
  Calendar.valid_date y m d = true -> 1 <= m <= 12 /\ 1 <= d <= 31.
Proof.
  unfold Calendar.valid_date, Calendar.days_in_month.
  rewrite !andb_true_iff, !Z.leb_le. intros (((H1 & H2) & H3) & H4).
  destruct (m =? 2); [destruct (Calendar.is_leap y); lia |].
  destruct ((m =? 4) || (m =? 6) || (m =? 9) || (m =? 11)); lia.
Qed.

(** Reading a minute string back gives the start of the minute. *)
Theorem decode_strftime ms :
  in_range ms = true ->
  decode_Ymd_HM (strftime_Ymd_HM ms) = Some (minute_floor ms).
Proof.
  intros Hms.
  destruct (strftime_fields ms Hms) as (y & m & d & h & n & -> & Hy & Hv & Hh & Hn & E).
  destruct (valid_date_bounds y m d Hv) as [Hm Hd].
  unfold decode_Ymd_HM. rewrite list_ascii_of_string_of_list_ascii.
  unfold pad4, pad2. cbn [app].
  change (Ascii.eqb "-" "-") with true. change (Ascii.eqb " " " ") with true.
  change (Ascii.eqb ":" ":") with true. cbn [andb].
  rewrite number_of_4 by lia. rewrite !number_of_2 by lia.
  rewrite Hv. cbn [andb].
  destruct (Z.ltb_spec h 24); [| lia]. destruct (Z.ltb_spec n 60); [| lia].
  cbn [andb]. rewrite E. reflexivity.
Qed.

Theorem parse_strftime ms :
  in_range ms = true -> in_range (minute_floor ms) = true ->
  parse_Ymd_HM (strftime_Ymd_HM ms) = Some (minute_floor ms).
Proof.
  intros H1 H2. unfold parse_Ymd_HM. rewrite decode_strftime by exact H1.
  rewrite H2. reflexivity.
Qed.

(** The minute string has the shape [dddd-dd-dd dd:dd]. *)
Theorem strftime_fixed_pattern ms :
  in_range ms = true -> fixed_pattern (strftime_Ymd_HM ms) = true.
Proof.
  intros Hms.
  destruct (strftime_fields ms Hms) as (y & m & d & h & n & -> & Hy & Hv & Hh & Hn & E).
  destruct (valid_date_bounds y m d Hv) as [Hm Hd].
  unfold fixed_pattern. rewrite list_ascii_of_string_of_list_ascii.
  unfold pad4, pad2. cbn [app forallb].
  change (Ascii.eqb "-" "-") with true. change (Ascii.eqb " " " ") with true.
  change (Ascii.eqb ":" ":") with true.
  rewrite !is_digit_digit by CalendarFacts.divisions. reflexivity.
Qed.

(** Seconds and milliseconds do not show in the minute string. *)
Theorem strftime_minute_floor ms :
  strftime_Ymd_HM (minute_floor ms) = strftime_Ymd_HM ms.
Proof.
  unfold strftime_Ymd_HM, minute_floor.
  replace (60000 * (ms / 60000) / 60000) with (ms / 60000)
    by CalendarFacts.divisions.
  reflexivity.
Qed.

(** Two Timestamps have the same minute string only inside one minute. *)
Theorem strftime_injective a b :
  in_range a = true -> in_range b = true ->
  strftime_Ymd_HM a = strftime_Ymd_HM b -> a / 60000 = b / 60000.
Proof.
  intros Ha Hb E.
  pose proof (decode_strftime a Ha) as Da. pose proof (decode_strftime b Hb) as Db.
  rewrite E, Db in Da. injection Da as Da. unfold minute_floor in Da. lia.
Qed.

Lemma hour_range ms : 0 <= hour ms <= 23.
Proof. unfold hour. CalendarFacts.divisions. Qed.

Lemma hour_minute_floor ms : hour (minute_floor ms) = hour ms.
Proof. unfold hour, minute_floor. CalendarFacts.divisions. Qed.
End TimestampFacts.

(** ** Order on binary64 *)

Module Float64Facts.
Import Float64.

Ltac compare_cases :=
  repeat match goal with
  | H : context [Pos.compare_cont Eq ?a ?b] |- _ =>
      change (Pos.compare_cont Eq a b) with (Pos.compare a b) in H
  | |- context [Pos.compare_cont Eq ?a ?b] =>
      change (Pos.compare_cont Eq a b) with (Pos.compare a b)
  end;
  repeat match goal with
  | H : context [Z.compare ?a ?b] |- _ => destruct (Z.compare_spec a b)
  | |- context [Z.compare ?a ?b] => destruct (Z.compare_spec a b)
  | H : context [Pos.compare ?a ?b] |- _ => destruct (Pos.compare_spec a b)
  | |- context [Pos.compare ?a ?b] => destruct (Pos.compare_spec a b)
  end;
  simpl in *; try reflexivity; try discriminate; try lia.

(** [<=] is transitive, NaN included: a NaN is related to nothing. *)
Lemma leb_trans a b c : leb a b = true -> leb b c = true -> leb a c = true.
Proof.
  unfold leb, SFleb, SFcompare.
  destruct a as [[|]|[|]| |[|] ma ea], b as [[|]|[|]| |[|] mb eb],
           c as [[|]|[|]| |[|] mc ec];
    simpl; try discriminate; try reflexivity; intros Hab Hbc; compare_cases.
Qed.

(** [x < t] excludes [t <= x]. *)
Lemma ltb_not_leb x t : ltb x t = true -> leb t x = false.
Proof.
  unfold ltb, leb, SFltb, SFleb, SFcompare.
  destruct x as [[|]|[|]| |[|] mx ex], t as [[|]|[|]| |[|] mt et];
    simpl; try discriminate; try reflexivity; intros H; compare_cases.
Qed.

(** Two numbers are comparable: [t <= x] or [x < t]. *)
Lemma leb_or_ltb x t :
  is_nan x = false -> is_nan t = false -> leb t x = true \/ ltb x t = true.
Proof.
  unfold ltb, leb, SFltb, SFleb, SFcompare.
  destruct x as [[|]|[|]| |[|] mx ex], t as [[|]|[|]| |[|] mt et];
    simpl; try discriminate; intros _ _; try (left; reflexivity);
    try (right; reflexivity); compare_cases;
    try (left; reflexivity); try (right; reflexivity).
Qed.
End Float64Facts.


(** ** The normaliser *)

Section Normaliser.
Context {rt : Runtime}.

Lemma parse_loop_acc items : forall acc,
  parse_loop items acc = (rs <- parse_loop items [] ;; Ok (acc ++ rs)%list).
Proof.
  induction items as [| item items IH]; intros acc; simpl.
  - rewrite app_nil_r. reflexivity.
  - destruct (getitem item "properties") as [p | e]; simpl; [| reflexivity].
    destruct (getitem p "mag") as [mag | e]; simpl; [| reflexivity].
    destruct (is_not_None mag).
    + destruct (make_record item mag) as [r | e]; simpl; [| reflexivity].
      rewrite (IH (acc ++ [r])%list), (IH [r]).
      destruct (parse_loop items []); simpl; [| reflexivity].
      rewrite <- app_assoc. reflexivity.
    + apply IH.
Qed.

(** One turn of the loop. *)
Lemma parse_loop_cons item items :
  parse_loop (item :: items) [] =
    (mag <- feature_mag item ;;
     if is_not_None mag then
       r <- make_record item mag ;; rs <- parse_loop items [] ;; Ok (r :: rs)
     else parse_loop items []).
Proof.
  unfold feature_mag. simpl.
  destruct (getitem item "properties") as [p | e]; simpl; [| reflexivity].
  destruct (getitem p "mag") as [mag | e]; simpl; [| reflexivity].
  destruct (is_not_None mag); [| reflexivity].
  destruct (make_record item mag) as [r | e]; simpl; [| reflexivity].
  rewrite parse_loop_acc. reflexivity.
Qed.

Lemma is_not_None_true mag : is_not_None mag = true <-> mag <> VNone.
Proof. destruct mag; simpl; split; congruence. Qed.

(** The records of a loop that completes are those of the features with a
    magnitude, in order. *)
Lemma parse_loop_records items : forall records,
  parse_loop items [] = Ok records ->
  Forall2 materialises (filter has_magnitude items) records.
Proof.
  induction items as [| item items IH]; intros records H.
  - injection H as <-. constructor.
  - rewrite parse_loop_cons in H.
    apply bind_Ok in H. destruct H as (mag & Hmag & H).
    simpl. unfold has_magnitude. rewrite Hmag.
    destruct (is_not_None mag) eqn:Hn.
    + apply bind_Ok in H. destruct H as (r & Hr & H).
      apply bind_Ok in H. destruct H as (rs & Hrs & H).
      injection H as <-. constructor.
      * exists mag. split; [exact Hmag |]. split; [| exact Hr].
        apply is_not_None_true. exact Hn.
      * apply IH. exact Hrs.
    + apply IH. exact H.
Qed.

Lemma filter_has_magnitude_In item items :
  In item (filter has_magnitude items) -> In item items.
Proof. intros H. apply filter_In in H. apply H. Qed.

(** What a record is made of. *)
Lemma make_record_inv item mag r :
  make_record item mag = Ok r ->
  exists coordinates lat lon place t time radius,
    feature_coordinates item = Ok coordinates /\
    getindex coordinates 1 = Ok lat /\
    getindex coordinates 0 = Ok lon /\
    feature_place item = Ok place /\
    feature_time item = Ok t /\
    time_string t = Ok time /\
    visual_radius mag = Ok radius /\
    r = [("lat", lat); ("lon", lon); ("mag", mag); ("place", place);
         ("time", time); ("radius", radius)].
Proof.
  unfold make_record, feature_coordinates, feature_place, feature_time.
  intros H.
  destruct (getitem item "geometry") as [g | e]; simpl in *; [| discriminate].
  destruct (getitem g "coordinates") as [c | e]; simpl in *; [| discriminate].
  destruct (getindex c 1) as [lat | e] eqn:E1; simpl in *; [| discriminate].
  destruct (getindex c 0) as [lon | e] eqn:E0; simpl in *; [| discriminate].
  destruct (getitem item "properties") as [p | e]; simpl in *; [| discriminate].
  destruct (getitem p "place") as [place | e]; simpl in *; [| discriminate].
  destruct (getitem p "time") as [t | e]; simpl in *; [| discriminate].
  destruct (time_string t) as [time | e] eqn:Et; simpl in *; [| discriminate].
  destruct (visual_radius mag) as [radius | e] eqn:Er; simpl in *; [| discriminate].
  injection H as <-.
  exists c, lat, lon, place, t, time, radius. repeat split; assumption.
Qed.

(** A feature with a missing field stops the loop. *)
Lemma make_record_missing item mag :
  has_magnitude item = true ->
  ((exists e, feature_coordinates item = Raise e) \/
   (exists c e, feature_coordinates item = Ok c /\
                (getindex c 0 = Raise e \/ getindex c 1 = Raise e)) \/
   (exists e, feature_place item = Raise e) \/
   (exists e, feature_time item = Raise e)) ->
  exists e, make_record item mag = Raise e.
Proof.
  intros _ H.
  destruct (make_record item mag) as [r | e] eqn:E; [| exists e; reflexivity].
  exfalso. apply make_record_inv in E.
  destruct E as (c & lat & lon & place & t & time & radius &
                 Hc & H1 & H0 & Hp & Ht & _).
  destruct H as [[e H] | [(c' & e & Hc' & [H | H]) | [[e H] | [e H]]]]; congruence.
Qed.

Lemma parse_loop_missing items :
  (exists item, In item items /\ missing_field item) ->
  forall acc, exists e, parse_loop items acc = Raise e.
Proof.
  induction items as [| item items IH]; intros (bad & Hin & Hbad) acc.
  - destruct Hin.
  - rewrite parse_loop_acc, parse_loop_cons.
    destruct (feature_mag item) as [mag | e] eqn:Hmag; simpl; [| eauto].
    assert (Htail : In bad items -> exists e,
              (rs <- parse_loop items [] ;; Ok (acc ++ rs)%list) = Raise e).
    { intros Hin'. destruct (IH (ex_intro _ bad (conj Hin' Hbad)) []) as [e He].
      rewrite He. simpl. eauto. }
    destruct (is_not_None mag) eqn:Hn.
    + destruct (make_record item mag) as [r | e] eqn:Hr; simpl; [| eauto].
      destruct Hin as [<- | Hin].
      * exfalso. destruct Hbad as [[e He] | [Hm Hbad]]; [congruence |].
        destruct (make_record_missing item mag Hm Hbad) as [e He]. congruence.
      * destruct (IH (ex_intro _ bad (conj Hin Hbad)) []) as [e He].
        rewrite He. simpl. eauto.
    + destruct Hin as [<- | Hin]; [| auto].
      exfalso. destruct Hbad as [[e He] | [Hm _]]; [congruence |].
      unfold has_magnitude in Hm. rewrite Hmag in Hm. congruence.
Qed.

Lemma fetch_and_parse_items r doc items :
  json r = Ok doc -> document_items doc = Ok items ->
  fetch_and_parse (Ok r) =
    (parsed_data <- parse_loop items [] ;; Ok (DataFrame_of_records parsed_data)).
Proof.
  unfold fetch_and_parse, document_items. simpl. intros -> H. simpl.
  destruct (getitem doc "features") as [features | e]; simpl in *; [| discriminate].
  rewrite H. reflexivity.
Qed.

Lemma fetch_and_parse_inv fetch df :
  fetch_and_parse fetch = Ok df ->
  exists r doc items records,
    fetch = Ok r /\ json r = Ok doc /\ document_items doc = Ok items /\
    parse_loop items [] = Ok records /\ df = DataFrame_of_records records.
Proof.
  unfold fetch_and_parse. intros H.
  destruct fetch as [r | e]; simpl in H; [| discriminate].
  destruct (json r) as [doc | e] eqn:Hj; simpl in H; [| discriminate].
  destruct (getitem doc "features") as [features | e] eqn:Hf; simpl in H;
    [| discriminate].
  destruct (iterate features) as [items | e] eqn:Hi; simpl in H; [| discriminate].
  destruct (parse_loop items []) as [records | e] eqn:Hl; simpl in H; [| discriminate].
  injection H as <-. exists r, doc, items, records.
  repeat split; auto.
  unfold document_items. rewrite Hf. exact Hi.
Qed.

(** [get_earthquake_data] never raises. *)
Lemma get_earthquake_data_returns fetch s :
  exists s', get_earthquake_data fetch s = (Ok (List.length (heap s)), s') /\
             nth_error (heap s') (List.length (heap s)) = Some (fetched_frame fetch) /\
             firstn (List.length (heap s)) (heap s') = heap s.
Proof.
  unfold get_earthquake_data, fetched_frame.
  destruct (fetch_and_parse fetch) as [df | e]; unfold new, emit, mbind; simpl;
    eexists; (split; [reflexivity |]); simpl;
    rewrite nth_error_app2, Nat.sub_diag by lia;
    (split; [reflexivity |]); rewrite firstn_app, Nat.sub_diag, firstn_all;
    simpl; apply app_nil_r.
Qed.
End Normaliser.

Lemma Forall2_In_r {A B : Type} (R : A -> B -> Prop) l l' y :
  Forall2 R l l' -> In y l' -> exists x, In x l /\ R x y.
Proof.
  induction 1 as [| x y' l l' HR _ IH]; intros Hin.
  - destruct Hin.
  - destruct Hin as [<- | Hin].
    + exists x. split; [left; reflexivity | exact HR].
    + destruct (IH Hin) as (x' & Hx' & HR'). exists x'. split; [right |]; assumption.
Qed.

Section NormaliserClaims.
Context {rt : Runtime}.

(** C2. Every row of the frame the fetcher returns carries a magnitude that
    is not null, and it is the magnitude of a feature of the feed: features
    whose magnitude is null leave no record. *)
Theorem null_magnitude_excluded (fetch : result response) (r : dict) :
  In r (rows (fetched_frame fetch)) ->
  exists mag,
    lookup "mag" r = Some mag /\ mag <> VNone /\
    exists resp doc items item,
      fetch = Ok resp /\ json resp = Ok doc /\ document_items doc = Ok items /\
      In item items /\ feature_mag item = Ok mag.
Proof.
  unfold fetched_frame.
  destruct (fetch_and_parse fetch) as [df | e] eqn:E; [| intros []].
  apply fetch_and_parse_inv in E.
  destruct E as (resp & doc & items & records & -> & Hj & Hd & Hl & ->).
  simpl. intros Hin.
  destruct (Forall2_In_r _ _ _ _ (parse_loop_records items records Hl) Hin)
    as (item & Hitem & mag & Hmag & Hnn & Hrec).
  apply make_record_inv in Hrec.
  destruct Hrec as (c & lat & lon & place & t & time & radius & _ & _ & _ & _ & _ & _ & _ & ->).
  exists mag. split; [reflexivity |]. split; [exact Hnn |].
  exists resp, doc, items, item. repeat split; try assumption.
  apply filter_has_magnitude_In. exact Hitem.
Qed.

(** C4. In the record of a feature, [lon] is the first and [lat] the second
    element of the feature's coordinates. *)
Theorem coordinates_not_swapped (item : value) (r : dict) (x y : value)
    (rest : list value) :
  materialises item r ->
  feature_coordinates item = Ok (VList (x :: y :: rest)) ->
  lookup "lon" r = Some x /\ lookup "lat" r = Some y.
Proof.
  intros (mag & _ & _ & Hrec) Hc.
  apply make_record_inv in Hrec.
  destruct Hrec as (c & lat & lon & place & t & time & radius &
                    Hc' & H1 & H0 & _ & _ & _ & _ & ->).
  rewrite Hc in Hc'. injection Hc' as <-. simpl in H0, H1.
  injection H0 as <-. injection H1 as <-. split; reflexivity.
Qed.

(** C7. The [time] of the record of a feature whose time is the epoch
    millisecond [ms] is the minute string of [ms]: a string of the shape
    [dddd-dd-dd dd:dd] that is the same all over the minute [ms] falls in
    and that reads back as the start of that minute. *)
Theorem timestamp_minute_string (item : value) (r : dict) (ms : Z) :
  materialises item r ->
  feature_time item = Ok (VInt ms) ->
  Timestamp.in_range ms = true ->
  lookup "time" r = Some (VStr (Timestamp.strftime_Ymd_HM ms)) /\
  fixed_pattern (Timestamp.strftime_Ymd_HM ms) = true /\
  Timestamp.strftime_Ymd_HM ms = Timestamp.strftime_Ymd_HM (minute_floor ms) /\
  Timestamp.decode_Ymd_HM (Timestamp.strftime_Ymd_HM ms) = Some (minute_floor ms).
Proof.
  intros (mag & _ & _ & Hrec) Ht Hms.
  apply make_record_inv in Hrec.
  destruct Hrec as (c & lat & lon & place & t & time & radius &
                    _ & _ & _ & _ & Ht' & Hs & _ & ->).
  rewrite Ht in Ht'. injection Ht' as <-.
  unfold time_string, to_datetime_ms in Hs. rewrite Hms in Hs. injection Hs as <-.
  split; [reflexivity |].
  split; [apply TimestampFacts.strftime_fixed_pattern; exact Hms |].
  split; [symmetry; apply TimestampFacts.strftime_minute_floor |].
  apply TimestampFacts.decode_strftime. exact Hms.
Qed.

(** C5, amended. When the request raises, the body is not JSON or a field
    the normaliser reads is missing, the fetcher returns normally with a
    new, empty frame and shows an error. *)
Theorem acquisition_failure_handled (fetch : result response) (s : state) :
  acquisition_failure fetch ->
  exists e,
    get_earthquake_data fetch s =
      (Ok (List.length (heap s)),
       {| heap := heap s ++ [DataFrame_empty]; ui := ui s ++ [st_error e] |}).
Proof.
  intros H.
  assert (E : exists e, fetch_and_parse fetch = Raise e).
  { destruct H as [e | r e Hj | r doc e Hj Hd | r doc items item Hj Hd Hin Hbad].
    - exists e. reflexivity.
    - exists e. unfold fetch_and_parse. simpl. rewrite Hj. reflexivity.
    - exists e. unfold fetch_and_parse, document_items in *. simpl. rewrite Hj. simpl.
      destruct (getitem doc "features") as [features | e']; simpl in *;
        [rewrite Hd; reflexivity | congruence].
    - rewrite (fetch_and_parse_items r doc items Hj Hd).
      destruct (parse_loop_missing items (ex_intro _ item (conj Hin Hbad)) [])
        as [e He].
      exists e. rewrite He. reflexivity. }
  destruct E as [e E]. exists e.
  unfold get_earthquake_data. rewrite E. reflexivity.
Qed.
End NormaliserClaims.

(** The witnesses and counterexamples of the normaliser's properties. *)

Lemma null_magnitude_excluded_witness :
  let r := hd [] (rows (fetched_frame (rt := Sample.runtime) Sample.feed)) in
  In r (rows (fetched_frame (rt := Sample.runtime) Sample.feed)) /\
  exists mag,
    lookup "mag" r = Some mag /\ mag <> VNone /\
    exists resp doc items item,
      Sample.feed = Ok resp /\ json resp = Ok doc /\ document_items doc = Ok items /\
      In item items /\ feature_mag item = Ok mag.
Proof.
  intros r.
  assert (H : In r (rows (fetched_frame (rt := Sample.runtime) Sample.feed)))
    by (vm_compute; left; reflexivity).
  split; [exact H |].
  exact (null_magnitude_excluded (rt := Sample.runtime) Sample.feed r H).
Defined.

Lemma quake_pair_materialises :
  materialises (rt := Sample.runtime) Sample.quake_pair
    [("lat", VFloat (Sample.decimal 20 1)); ("lon", VFloat (Sample.decimal 10 1));
     ("mag", VInt 4); ("place", VStr "P"); ("time", VStr "1970-01-01 00:00");
     ("radius", VFloat (Float64.of_Z 20000))].
Proof.
  exists (VInt 4). split; [reflexivity |]. split; [discriminate | reflexivity].
Defined.

Lemma coordinates_not_swapped_witness :
  let r := [("lat", VFloat (Sample.decimal 20 1)); ("lon", VFloat (Sample.decimal 10 1));
            ("mag", VInt 4); ("place", VStr "P"); ("time", VStr "1970-01-01 00:00");
            ("radius", VFloat (Float64.of_Z 20000))] in
  materialises (rt := Sample.runtime) Sample.quake_pair r /\
  feature_coordinates Sample.quake_pair =
    Ok (VList [VFloat (Sample.decimal 10 1); VFloat (Sample.decimal 20 1)]) /\
  lookup "lon" r = Some (VFloat (Sample.decimal 10 1)) /\
  lookup "lat" r = Some (VFloat (Sample.decimal 20 1)).
Proof.
  intros r.
  split; [exact quake_pair_materialises |].
  split; [reflexivity |].
  exact (coordinates_not_swapped (rt := Sample.runtime) Sample.quake_pair r _ _ []
           quake_pair_materialises eq_refl).
Defined.

Lemma quake_a_materialises :
  materialises (rt := Sample.runtime) Sample.quake_a
    (hd [] (rows (fetched_frame (rt := Sample.runtime) Sample.feed))).
Proof.
  exists (VInt 5). split; [reflexivity |]. split; [discriminate | reflexivity].
Defined.

Lemma timestamp_minute_string_witness :
  let r := hd [] (rows (fetched_frame (rt := Sample.runtime) Sample.feed)) in
  materialises (rt := Sample.runtime) Sample.quake_a r /\
  feature_time Sample.quake_a = Ok (VInt 1700000000123) /\
  Timestamp.in_range 1700000000123 = true /\
  lookup "time" r = Some (VStr "2023-11-14 22:13").
Proof.
  intros r.
  split; [exact quake_a_materialises |].
  split; [reflexivity |]. split; [reflexivity |].
  exact (proj1 (timestamp_minute_string (rt := Sample.runtime) Sample.quake_a r
                  1700000000123 quake_a_materialises eq_refl eq_refl)).
Defined.

(** C9 as stated fails: a feature with a magnitude and no geometry makes
    the loop raise, and the frame returned has no row at all, not even for
    the well-formed feature before it. *)
Lemma one_record_per_feature_counterexample :
  ~ (forall (rt : Runtime) (items : list value),
       List.length
         (rows (fetched_frame (Sample.ok_response (Sample.document items)))) =
       List.length (filter has_magnitude items)).
Proof.
  intros H.
  specialize (H Sample.runtime [Sample.quake_a; Sample.quake_malformed]).
  vm_compute in H. discriminate H.
Qed.

Lemma acquisition_failure_handled_witness :
  acquisition_failure (Raise Timeout) /\
  exists e,
    get_earthquake_data (rt := Sample.runtime) (Raise Timeout) initial_state =
      (Ok 0%nat, {| heap := [DataFrame_empty]; ui := [st_error e] |}).
Proof.
  split; [exact (request_failed Timeout) |].
  exact (acquisition_failure_handled (rt := Sample.runtime) (Raise Timeout)
           initial_state (request_failed Timeout)).
Defined.

(** C5 as stated fails: the status of the response is never looked at, and
    a 503 response whose body is a well-formed feed is normalised like any
    other, with no error shown. *)
Lemma non_2xx_counterexample :
  ~ (forall (rt : Runtime) (fetch : result response) (s : state),
       listed_failure fetch ->
       exists e,
         get_earthquake_data fetch s =
           (Ok (List.length (heap s)),
            {| heap := heap s ++ [DataFrame_empty]; ui := ui s ++ [st_error e] |})).
Proof.
  intros H.
  destruct (H Sample.runtime Sample.feed_503 initial_state) as [e He].
  - right. eexists. split; [reflexivity | reflexivity].
  - vm_compute in He. discriminate He.
Qed.

(** ** Frames and the filter *)

Lemma has_column_In c cols : has_column c cols = true <-> In c cols.
Proof.
  unfold has_column. rewrite existsb_exists. split.
  - intros (c' & Hin & E). apply String.eqb_eq in E. subst. exact Hin.
  - intros Hin. exists c. split; [exact Hin | apply String.eqb_refl].
Qed.

Lemma add_columns_keeps c keys : forall cols,
  In c cols -> In c (add_columns cols keys).
Proof.
  induction keys as [| k keys IH]; intros cols H; simpl; [exact H |].
  apply IH. destruct (has_column k cols); [exact H |].
  apply in_or_app. left. exact H.
Qed.

Lemma add_columns_adds c keys : forall cols,
  In c keys -> In c (add_columns cols keys).
Proof.
  induction keys as [| k keys IH]; intros cols H; simpl; [destruct H |].
  destruct H as [-> | H]; [| apply IH; exact H].
  apply add_columns_keeps.
  destruct (has_column c cols) eqn:E; [apply has_column_In; exact E |].
  apply in_or_app. right. left. reflexivity.
Qed.

Lemma fold_add_columns_keeps c (records : list dict) : forall cols,
  In c cols ->
  In c (fold_left (fun cols r => add_columns cols (map fst r)) records cols).
Proof.
  induction records as [| r records IH]; intros cols H; simpl; [exact H |].
  apply IH. apply add_columns_keeps. exact H.
Qed.

(** A key of the first record is a column of the frame. *)
Lemma DataFrame_of_records_column c (r : dict) (records : list dict) :
  In c (map fst r) ->
  has_column c (columns (DataFrame_of_records (r :: records))) = true.
Proof.
  intros H. apply has_column_In. simpl.
  apply fold_add_columns_keeps. apply add_columns_adds. exact H.
Qed.

Lemma ge_float_cell t r :
  ge_float (cell "mag" r) t = if numeric r then Ok (passes t r) else Raise TypeError.
Proof.
  unfold ge_float, numeric, passes, row_magnitude.
  destruct (as_number (cell "mag" r)) as [[k | f] | e] eqn:E; simpl; try reflexivity.
  destruct (cell "mag" r); simpl in E; congruence.
Qed.

Lemma series_ge_mag t rs :
  series_ge (map (cell "mag") rs) t =
    if forallb numeric rs then Ok (map (passes t) rs) else Raise TypeError.
Proof.
  unfold series_ge. induction rs as [| r rs IH]; simpl; [reflexivity |].
  rewrite ge_float_cell. destruct (numeric r); simpl; [| reflexivity].
  rewrite IH. destruct (forallb numeric rs); reflexivity.
Qed.

Lemma select_rows_map (f : dict -> bool) rs :
  select_rows rs (map f rs) = filter f rs.
Proof.
  induction rs as [| r rs IH]; simpl; [reflexivity |].
  rewrite IH. reflexivity.
Qed.

(** What line 54 does on any frame. *)
Lemma filter_by_magnitude_spec df t :
  filter_by_magnitude df t =
    if has_column "mag" (columns df) then
      if forallb numeric (rows df)
      then Ok {| columns := columns df; rows := filter (passes t) (rows df) |}
      else Raise TypeError
    else Raise KeyError.
Proof.
  unfold filter_by_magnitude, getcol.
  destruct (has_column "mag" (columns df)); simpl; [| reflexivity].
  rewrite series_ge_mag. destruct (forallb numeric (rows df)); simpl; [| reflexivity].
  unfold select. rewrite select_rows_map. reflexivity.
Qed.

Lemma passes_antitone t1 t2 r :
  Float64.leb t1 t2 = true -> passes t2 r = true -> passes t1 r = true.
Proof.
  unfold passes. destruct (row_magnitude r) as [f |]; [| discriminate].
  apply Float64Facts.leb_trans.
Qed.

Lemma filter_filter_antitone t1 t2 (rs : list dict) :
  Float64.leb t1 t2 = true ->
  filter (passes t2) (filter (passes t1) rs) = filter (passes t2) rs.
Proof.
  intros H. induction rs as [| r rs IH]; simpl; [reflexivity |].
  destruct (passes t1 r) eqn:E1; simpl.
  - rewrite IH. reflexivity.
  - rewrite IH. destruct (passes t2 r) eqn:E2; [| reflexivity].
    rewrite (passes_antitone t1 t2 r H E2) in E1. discriminate E1.
Qed.

(** C10. The filter is antitone in the threshold: when [t1 <= t2] and the
    filter returns for [t2], it returns for [t1] too, and the rows for [t2]
    are among the rows for [t1]; they are those that pass [t2]. *)
Theorem filter_antitone (df : DataFrame) (t1 t2 : spec_float) (f2 : DataFrame) :
  Float64.leb t1 t2 = true ->
  filter_by_magnitude df t2 = Ok f2 ->
  exists f1,
    filter_by_magnitude df t1 = Ok f1 /\
    incl (rows f2) (rows f1) /\
    rows f2 = filter (passes t2) (rows f1).
Proof.
  intros Hle. rewrite !filter_by_magnitude_spec.
  destruct (has_column "mag" (columns df)); [| discriminate].
  destruct (forallb numeric (rows df)); [| discriminate].
  intros H. injection H as <-. eexists. split; [reflexivity |]. simpl.
  rewrite filter_filter_antitone by exact Hle. split; [| reflexivity].
  intros r Hr. apply filter_In in Hr. destruct Hr as [Hin Hp].
  apply filter_In. split; [exact Hin |].
  exact (passes_antitone t1 t2 r Hle Hp).
Qed.

Section FilterOnEvents.
Context {rt : Runtime}.

Lemma visual_radius_numeric mag radius :
  visual_radius mag = Ok radius -> exists n, as_number mag = Ok n.
Proof.
  unfold visual_radius, py_sub_int.
  destruct (as_number mag) as [n | e]; simpl; [eauto | discriminate].
Qed.

Lemma materialises_numeric item r : materialises item r -> numeric r = true.
Proof.
  intros (mag & _ & _ & Hrec). apply make_record_inv in Hrec.
  destruct Hrec as (c & lat & lon & place & t & time & radius &
                    _ & _ & _ & _ & _ & _ & Hr & ->).
  destruct (visual_radius_numeric mag radius Hr) as [n Hn].
  unfold numeric, row_magnitude, cell. simpl. rewrite Hn. reflexivity.
Qed.

Lemma materialises_keys item r :
  materialises item r ->
  map fst r = ["lat"; "lon"; "mag"; "place"; "time"; "radius"].
Proof.
  intros (mag & _ & _ & Hrec). apply make_record_inv in Hrec.
  destruct Hrec as (c & lat & lon & place & t & time & radius &
                    _ & _ & _ & _ & _ & _ & _ & ->).
  reflexivity.
Qed.

(** The frame the fetcher returns, when it has rows: they are records of
    features, and their keys are columns. *)
Lemma fetched_frame_rows fetch :
  rows (fetched_frame fetch) <> [] ->
  Forall (fun r => exists item, materialises item r) (rows (fetched_frame fetch)) /\
  forall c, In c ["lat"; "lon"; "mag"; "place"; "time"; "radius"] ->
            has_column c (columns (fetched_frame fetch)) = true.
Proof.
  unfold fetched_frame.
  destruct (fetch_and_parse fetch) as [df | e] eqn:E; [| intros H; destruct H; reflexivity].
  apply fetch_and_parse_inv in E.
  destruct E as (resp & doc & items & records & -> & Hj & Hd & Hl & ->).
  intros Hne. simpl in Hne.
  pose proof (parse_loop_records items records Hl) as HF.
  assert (HA : Forall (fun r => exists item, materialises item r) records).
  { apply Forall_forall. intros r Hin.
    destruct (Forall2_In_r _ _ _ _ HF Hin) as (item & _ & Hm). eauto. }
  split; [exact HA |].
  destruct records as [| r records]; [congruence |].
  intros c Hc. apply DataFrame_of_records_column.
  inversion HA as [| ? ? [item Hm] _]; subst.
  rewrite (materialises_keys item r Hm). exact Hc.
Qed.

(** The frame the fetcher returns has no column when it has no row. *)
Lemma fetched_frame_no_rows fetch :
  rows (fetched_frame fetch) = [] -> columns (fetched_frame fetch) = [].
Proof.
  unfold fetched_frame.
  destruct (fetch_and_parse fetch) as [df | e] eqn:E; [| reflexivity].
  apply fetch_and_parse_inv in E.
  destruct E as (resp & doc & items & records & -> & Hj & Hd & Hl & ->).
  simpl. intros ->. reflexivity.
Qed.

(** On a frame with at least one event the filter returns exactly the rows
    whose magnitude is [>= t]; rows whose magnitude is [< t] are left out. *)
Theorem filter_exact_on_events fetch t :
  rows (fetched_frame fetch) <> [] ->
  exists f,
    filter_by_magnitude (fetched_frame fetch) t = Ok f /\
    columns f = columns (fetched_frame fetch) /\
    rows f = filter (passes t) (rows (fetched_frame fetch)) /\
    (forall r, In r (rows f) <-> In r (rows (fetched_frame fetch)) /\ passes t r = true) /\
    (forall r mag, In r (rows (fetched_frame fetch)) -> row_magnitude r = Some mag ->
                   Float64.ltb mag t = true -> ~ In r (rows f)).
Proof.
  intros Hne. destruct (fetched_frame_rows fetch Hne) as [HA Hcols].
  rewrite filter_by_magnitude_spec.
  rewrite Hcols by (simpl; tauto).
  assert (Hnum : forallb numeric (rows (fetched_frame fetch)) = true).
  { apply forallb_forall. intros r Hin. rewrite Forall_forall in HA.
    destruct (HA r Hin) as [item Hm]. exact (materialises_numeric item r Hm). }
  rewrite Hnum. eexists. split; [reflexivity |]. simpl.
  split; [reflexivity |]. split; [reflexivity |]. split.
  - intros r. apply filter_In.
  - intros r mag Hin Hmag Hlt Hf. apply filter_In in Hf. destruct Hf as [_ Hp].
    unfold passes in Hp. rewrite Hmag in Hp.
    rewrite (Float64Facts.ltb_not_leb mag t Hlt) in Hp. discriminate Hp.
Qed.

(** A threshold above every magnitude leaves no row. *)
Theorem filter_above_maximum fetch t :
  rows (fetched_frame fetch) <> [] ->
  (forall r mag, In r (rows (fetched_frame fetch)) -> row_magnitude r = Some mag ->
                 Float64.ltb mag t = true) ->
  exists f, filter_by_magnitude (fetched_frame fetch) t = Ok f /\ rows f = [].
Proof.
  intros Hne Hmax. destruct (fetched_frame_rows fetch Hne) as [HA Hcols].
  rewrite filter_by_magnitude_spec, Hcols by (simpl; tauto).
  assert (Hnum : forallb numeric (rows (fetched_frame fetch)) = true).
  { apply forallb_forall. intros r Hin. rewrite Forall_forall in HA.
    destruct (HA r Hin) as [item Hm]. exact (materialises_numeric item r Hm). }
  rewrite Hnum. eexists. split; [reflexivity |]. simpl.
  destruct (filter (passes t) (rows (fetched_frame fetch))) as [| r rs] eqn:E;
    [reflexivity |]. exfalso.
  assert (Hin : In r (filter (passes t) (rows (fetched_frame fetch))))
    by (rewrite E; left; reflexivity).
  apply filter_In in Hin. destruct Hin as [Hin Hp].
  unfold passes in Hp. destruct (row_magnitude r) as [mag |] eqn:Hm; [| discriminate].
  rewrite (Float64Facts.ltb_not_leb mag t (Hmax r mag Hin Hm)) in Hp. discriminate Hp.
Qed.

(** C1. On a frame without events line 54 raises: the frame has no [mag]
    column to read. *)
Theorem filter_raises_without_events (fetch : result response) (t : spec_float) :
  rows (fetched_frame fetch) = [] ->
  filter_by_magnitude (fetched_frame fetch) t = Raise KeyError.
Proof.
  intros H. rewrite filter_by_magnitude_spec.
  rewrite (fetched_frame_no_rows fetch H). reflexivity.
Qed.
End FilterOnEvents.

Lemma filter_antitone_witness :
  let df := fetched_frame (rt := Sample.runtime) Sample.feed in
  let t1 := Sample.decimal 25 10 in
  let t2 := Sample.default_min_mag in
  Float64.leb t1 t2 = true /\
  exists f2, filter_by_magnitude df t2 = Ok f2 /\
  exists f1, filter_by_magnitude df t1 = Ok f1 /\
             incl (rows f2) (rows f1) /\ List.length (rows f2) = 2%nat /\
             List.length (rows f1) = 3%nat.
Proof.
  intros df t1 t2.
  assert (Hle : Float64.leb t1 t2 = true) by (vm_compute; reflexivity).
  assert (H2 : filter_by_magnitude df t2 = Ok Sample.filtered)
    by (vm_compute; reflexivity).
  split; [exact Hle |].
  exists Sample.filtered. split; [exact H2 |].
  destruct (filter_antitone df t1 t2 Sample.filtered Hle H2) as (f1 & H1 & Hincl & _).
  exists f1. split; [exact H1 |]. split; [exact Hincl |].
  split; [vm_compute; reflexivity |].
  vm_compute in H1. injection H1 as <-. reflexivity.
Defined.

Lemma filter_raises_without_events_witness :
  rows (fetched_frame (rt := Sample.runtime) Sample.quiet_feed) = [] /\
  filter_by_magnitude (fetched_frame (rt := Sample.runtime) Sample.quiet_feed)
    Sample.default_min_mag = Raise KeyError.
Proof.
  assert (H : rows (fetched_frame (rt := Sample.runtime) Sample.quiet_feed) = [])
    by (vm_compute; reflexivity).
  split; [exact H |].
  exact (filter_raises_without_events (rt := Sample.runtime) Sample.quiet_feed
           Sample.default_min_mag H).
Defined.

(** The whole script on the feed without events, and after a timeout. *)
Example script_quiet_feed :
  script (rt := Sample.runtime) Sample.quiet_feed Sample.default_min_mag initial_state =
    (Raise KeyError, {| heap := [DataFrame_empty]; ui := [] |}).
Proof. vm_compute. reflexivity. Qed.

Example script_timeout :
  script (rt := Sample.runtime) (Raise Timeout) Sample.default_min_mag initial_state =
    (Raise KeyError, {| heap := [DataFrame_empty]; ui := [st_error Timeout] |}).
Proof. vm_compute. reflexivity. Qed.

(** Threshold 8.1 on the sample feed, whose magnitudes are at most 6. *)
Example filter_8_1 :
  filter_by_magnitude (fetched_frame (rt := Sample.runtime) Sample.feed)
    (Sample.decimal 81 10) =
    Ok {| columns := ["lat"; "lon"; "mag"; "place"; "time"; "radius"]; rows := [] |}.
Proof. vm_compute. reflexivity. Qed.

(** ** Counting and sorting *)

Section Sorting.
Context {A : Type} (le : A -> A -> bool).

Lemma insert_by_perm x l : Permutation (insert_by le x l) (x :: l).
Proof.
  induction l as [| y l IH]; simpl; [reflexivity |].
  destruct (le x y); [reflexivity |].
  rewrite IH. apply perm_swap.
Qed.

Lemma sort_by_perm l : Permutation (sort_by le l) l.
Proof.
  induction l as [| x l IH]; simpl; [reflexivity |].
  rewrite insert_by_perm. constructor. exact IH.
Qed.

Hypothesis le_total : forall a b, le a b = true \/ le b a = true.

Lemma insert_by_HdRel a x l :
  le a x = true -> HdRel (fun u v => le u v = true) a l ->
  HdRel (fun u v => le u v = true) a (insert_by le x l).
Proof.
  intros Hax H. destruct l as [| y l]; simpl.
  - constructor. exact Hax.
  - destruct (le x y); constructor; [exact Hax |].
    inversion H; assumption.
Qed.

Lemma insert_by_sorted x l :
  Sorted (fun u v => le u v = true) l ->
  Sorted (fun u v => le u v = true) (insert_by le x l).
Proof.
  induction 1 as [| y l Hs IH Hd]; simpl.
  - repeat constructor.
  - destruct (le x y) eqn:E.
    + constructor; [constructor; assumption | constructor; exact E].
    + constructor; [exact IH |].
      apply insert_by_HdRel; [| exact Hd].
      destruct (le_total x y) as [H | H]; [congruence | exact H].
Qed.

Lemma sort_by_sorted l : Sorted (fun u v => le u v = true) (sort_by le l).
Proof.
  induction l as [| x l IH]; simpl; [constructor |].
  apply insert_by_sorted. exact IH.
Qed.
End Sorting.

Lemma total_perm l l' : Permutation l l' -> total l = total l'.
Proof.
  induction 1 as [| [k n] l l' _ IH | [k n] [k' n'] l | l l' l'' _ IH1 _ IH2];
    simpl; lia.
Qed.

Lemma sorted_keys_strict (l : list (Z * nat)) :
  Sorted (fun u v => (fst u <=? fst v) = true) l -> NoDup (map fst l) ->
  StronglySorted Z.lt (map fst l).
Proof.
  intros Hs Hn.
  assert (Hss : StronglySorted (fun u v => (fst u <=? fst v) = true) l).
  { apply Sorted_StronglySorted; [| exact Hs].
    intros a b c Hab Hbc. apply Z.leb_le in Hab, Hbc. apply Z.leb_le. lia. }
  clear Hs. induction Hss as [| a l Hss IH Hall]; simpl; [constructor |].
  simpl in Hn. inversion Hn as [| ? ? Hnotin Hn']; subst.
  constructor; [apply IH; exact Hn' |].
  apply Forall_forall. intros k Hk. apply in_map_iff in Hk.
  destruct Hk as (b & <- & Hb).
  rewrite Forall_forall in Hall. specialize (Hall b Hb). apply Z.leb_le in Hall.
  assert (fst a <> fst b) by (intros E; apply Hnotin; rewrite E; apply in_map; exact Hb).
  lia.
Qed.

Lemma count_add_total k counts : total (count_add k counts) = S (total counts).
Proof.
  induction counts as [| [k' n] counts IH]; simpl; [reflexivity |].
  destruct (k =? k'); simpl; lia.
Qed.

Lemma count_add_keys k counts :
  map fst (count_add k counts) =
    if existsb (Z.eqb k) (map fst counts) then map fst counts
    else (map fst counts ++ [k])%list.
Proof.
  induction counts as [| [k' n] counts IH]; simpl; [reflexivity |].
  destruct (k =? k') eqn:E; simpl; [reflexivity |].
  rewrite IH. destruct (existsb (Z.eqb k) (map fst counts)); reflexivity.
Qed.

Lemma count_add_NoDup k counts :
  NoDup (map fst counts) -> NoDup (map fst (count_add k counts)).
Proof.
  intros H. rewrite count_add_keys.
  destruct (existsb (Z.eqb k) (map fst counts)) eqn:E; [exact H |].
  apply NoDup_app; [exact H | repeat constructor; intros [] |].
  intros x Hx [E' | []]. subst x.
  assert (existsb (Z.eqb k) (map fst counts) = true)
    by (apply existsb_exists; exists k; split; [exact Hx | apply Z.eqb_refl]).
  congruence.
Qed.

Lemma count_add_Forall (P : Z -> Prop) k counts :
  P k -> Forall P (map fst counts) -> Forall P (map fst (count_add k counts)).
Proof.
  intros Hk H. rewrite count_add_keys.
  destruct (existsb (Z.eqb k) (map fst counts)); [exact H |].
  apply Forall_app. split; [exact H | repeat constructor; exact Hk].
Qed.

(** The tally of a column of ints. *)
Lemma tally_ints (P : Z -> Prop) (ks : list Z) : forall counts,
  Forall P ks -> Forall P (map fst counts) -> NoDup (map fst counts) ->
  total (tally (map VInt ks) counts) = (List.length ks + total counts)%nat /\
  Forall P (map fst (tally (map VInt ks) counts)) /\
  NoDup (map fst (tally (map VInt ks) counts)).
Proof.
  induction ks as [| k ks IH]; intros counts Hks Hc Hn; simpl.
  - repeat split; assumption.
  - inversion Hks as [| ? ? Hk Hks']; subst.
    destruct (IH (count_add k counts) Hks'
                (count_add_Forall P k counts Hk Hc) (count_add_NoDup k counts Hn))
      as (Ht & Hf & Hd).
    rewrite count_add_total in Ht. repeat split; [lia | exact Hf | exact Hd].
Qed.

(** [value_counts().sort_index()] on a column of ints: every cell is
    counted once, and the keys come in ascending order. *)
Lemma hourly_counts_ints (P : Z -> Prop) (ks : list Z) :
  Forall P ks ->
  let counts := sort_index (value_counts (map VInt ks)) in
  total counts = List.length ks /\
  Forall P (map fst counts) /\
  StronglySorted Z.lt (map fst counts).
Proof.
  intros Hks counts.
  destruct (tally_ints P ks [] Hks (Forall_nil _) (NoDup_nil _)) as (Ht & Hf & Hd).
  assert (Hp : Permutation counts (tally (map VInt ks) [])).
  { unfold counts, sort_index, value_counts.
    rewrite !sort_by_perm. reflexivity. }
  split; [rewrite (total_perm _ _ Hp); simpl in Ht; lia |].
  split.
  - eapply Permutation_Forall; [| exact Hf].
    apply Permutation_map. symmetry. exact Hp.
  - apply sorted_keys_strict.
    + unfold counts, sort_index. apply sort_by_sorted.
      intros a b. rewrite !Z.leb_le. lia.
    + eapply Permutation_NoDup; [| exact Hd].
      apply Permutation_map. symmetry. exact Hp.
Qed.

(** ** The store *)

Lemma replace_nth_length {A : Type} n (x : A) l :
  List.length (replace_nth n x l) = List.length l.
Proof.
  revert n. induction l as [| y l IH]; intros [| n]; simpl; try reflexivity.
  rewrite IH. reflexivity.
Qed.

Lemma nth_error_replace_nth_other {A : Type} n m (x : A) l :
  n <> m -> nth_error (replace_nth n x l) m = nth_error l m.
Proof.
  revert n m. induction l as [| y l IH]; intros [| n] [| m] H; simpl;
    try reflexivity; try congruence.
  apply IH. congruence.
Qed.

Lemma nth_replace_nth {A : Type} n (x d : A) l :
  (n < List.length l)%nat -> nth n (replace_nth n x l) d = x.
Proof.
  revert n. induction l as [| y l IH]; intros [| n] H; simpl in *; try lia.
  - reflexivity.
  - apply IH. lia.
Qed.

Lemma mbind_Ok {A B : Type} (c : M A) (k : A -> M B) s b s' :
  mbind c k s = (Ok b, s') ->
  exists a s1, c s = (Ok a, s1) /\ k a s1 = (Ok b, s').
Proof.
  unfold mbind. destruct (c s) as [[a | e] s1]; intros H.
  - exists a, s1. split; [reflexivity | exact H].
  - discriminate H.
Qed.

Section Frames.
Context {A : Type} (r : ref).

Lemma frames_ret (a : A) : frames r (ret a).
Proof. intros s H. simpl. split; [reflexivity | lia]. Qed.

Lemma frames_lift (c : result A) : frames r (lift c).
Proof. intros s H. simpl. split; [reflexivity | lia]. Qed.

Lemma frames_emit (e : ui_event) : frames r (emit e).
Proof. intros s H. simpl. split; [reflexivity | lia]. Qed.

Lemma frames_get (r' : ref) : frames r (get r').
Proof. intros s H. simpl. split; [reflexivity | lia]. Qed.

Lemma frames_put (r' : ref) (df : DataFrame) : r' <> r -> frames r (put r' df).
Proof.
  intros Hne s H. simpl. rewrite replace_nth_length.
  split; [apply nth_error_replace_nth_other; exact Hne | lia].
Qed.

Lemma frames_bind {B : Type} (c : M B) (k : B -> M A) :
  frames r c -> (forall b, frames r (k b)) -> frames r (mbind c k).
Proof.
  intros Hc Hk s H. unfold mbind.
  destruct (Hc s H) as [H1 H2]. destruct (c s) as [[b | e] s1]; simpl in *.
  - destruct (Hk b s1 ltac:(lia)) as [H3 H4]. split; [congruence | lia].
  - split; [exact H1 | exact H2].
Qed.

(** What follows an allocation works on an object other than [r]. *)
Lemma frames_bind_new (df : DataFrame) (k : ref -> M A) :
  (forall r', r' <> r -> frames r (k r')) -> frames r (mbind (new df) k).
Proof.
  intros Hk s H. unfold mbind, new.
  set (s1 := {| heap := heap s ++ [df]; ui := ui s |}).
  assert (H1 : (r < List.length (heap s1))%nat)
    by (simpl; rewrite length_app; simpl; lia).
  destruct (Hk (List.length (heap s)) ltac:(lia) s1 H1) as [H3 H4].
  split.
  - rewrite H3. simpl. apply nth_error_app1. exact H.
  - simpl in H4. rewrite length_app in H4. simpl in H4. lia.
Qed.
End Frames.

Ltac frame_steps :=
  repeat first
    [ apply frames_ret | apply frames_lift | apply frames_emit | apply frames_get
    | apply frames_put; assumption
    | apply frames_bind; [| intros ?]
    | match goal with |- frames _ (if ?b then _ else _) => destruct b end ].

Section Script.
Context {rt : Runtime}.

Lemma metrics_frames r fr t : fr <> r -> frames r (metrics fr t).
Proof. intros H. unfold metrics. frame_steps. Qed.

Lemma map_layer_frames r fr : fr <> r -> frames r (map_layer fr).
Proof. intros H. unfold map_layer. frame_steps. Qed.

Lemma data_table_frames r fr : fr <> r -> frames r (data_table fr).
Proof. intros H. unfold data_table. frame_steps. Qed.

Lemma time_distribution_frames r fr : fr <> r -> frames r (time_distribution fr).
Proof. intros H. unfold time_distribution. frame_steps. Qed.

(** Lines 54-120 leave the frame behind [df] as it is. *)
Lemma process_frames df t : frames df (process df t).
Proof.
  unfold process.
  apply frames_bind; [apply frames_get | intros d].
  apply frames_bind; [apply frames_lift | intros filtered].
  apply frames_bind_new. intros fr Hne.
  apply frames_bind; [apply frames_emit | intros _].
  apply frames_bind; [apply metrics_frames; exact Hne | intros _].
  apply frames_bind; [apply map_layer_frames; exact Hne | intros _].
  apply frames_bind; [apply data_table_frames; exact Hne | intros _].
  apply frames_bind; [apply time_distribution_frames; exact Hne | intros h].
  apply frames_ret.
Qed.

(** The filtered frame is a new object. *)
Lemma process_new_object df t s fr h s' :
  process df t s = (Ok (fr, h), s') -> fr = List.length (heap s).
Proof.
  unfold process. intros H.
  apply mbind_Ok in H. destruct H as (d & s1 & H1 & H).
  unfold get in H1. injection H1 as _ <-.
  apply mbind_Ok in H. destruct H as (filtered & s1 & H1 & H).
  unfold lift in H1. injection H1 as _ <-.
  apply mbind_Ok in H. destruct H as (fr' & s1 & H1 & H).
  unfold new in H1. injection H1 as <- <-.
  repeat (apply mbind_Ok in H; destruct H as (? & ? & _ & H)).
  unfold ret in H. injection H as <- _ _. reflexivity.
Qed.

(** C8. Whatever the run of the script does after [get_earthquake_data],
    and whether it ends or raises, the frame behind [df] is the frame the
    fetcher returned; the filtered frame, which the histogram code extends
    in place, is another object. *)
Theorem source_collection_unchanged (fetch : result response)
    (min_mag : spec_float) (s : state) :
  let df := List.length (heap s) in
  let run := script fetch min_mag s in
  nth_error (heap (snd run)) df = Some (fetched_frame fetch) /\
  match fst run with
  | Ok (df', filtered_df, _) => df' = df /\ filtered_df <> df
  | Raise _ => True
  end.
Proof.
  intros df run. subst run. unfold script, mbind.
  destruct (get_earthquake_data_returns fetch s) as (s1 & E & Hnth & Hpre).
  rewrite E. fold df. fold df in Hnth.
  assert (Hlt : (df < List.length (heap s1))%nat)
    by (apply nth_error_Some; rewrite Hnth; discriminate).
  destruct (process_frames df min_mag s1 Hlt) as [Hp _].
  destruct (process df min_mag s1) as [[[fr h] | e] s2] eqn:Ep; simpl in *.
  - split; [congruence |].
    split; [reflexivity |].
    apply process_new_object in Ep. lia.
  - split; [congruence | exact I].
Qed.
End Script.

(** ** The histogram *)

Lemma lookup_dict_set c v d : lookup c (dict_set c v d) = Some v.
Proof.
  induction d as [| [k x] d IH]; simpl.
  - rewrite String.eqb_refl. reflexivity.
  - destruct (String.eqb c k) eqn:E; simpl; rewrite E; [reflexivity | exact IH].
Qed.

Lemma set_cells_read c col : forall rs,
  List.length col = List.length rs ->
  map (cell c) (set_cells c rs col) = col /\
  List.length (set_cells c rs col) = List.length rs.
Proof.
  induction col as [| v col IH]; intros [| r rs] H; simpl in *; try discriminate.
  - split; reflexivity.
  - destruct (IH rs ltac:(lia)) as [H1 H2].
    unfold cell at 1. rewrite lookup_dict_set, H1, H2. split; reflexivity.
Qed.

(** [df[c] = col] followed by [df[c]]. *)
Lemma setcol_getcol df c col :
  List.length col = List.length (rows df) ->
  exists df',
    setcol df c col = Ok df' /\ getcol df' c = Ok col /\
    List.length (rows df') = List.length (rows df).
Proof.
  intros H. unfold setcol. rewrite H, Nat.eqb_refl.
  eexists. split; [reflexivity |].
  destruct (set_cells_read c col (rows df) H) as [H1 H2].
  unfold getcol. simpl. rewrite H1, H2.
  replace (has_column c (if has_column c (columns df) then columns df
                         else (columns df ++ [c])%list)) with true; [auto |].
  symmetry. destruct (has_column c (columns df)) eqn:E; [exact E |].
  apply has_column_In. apply in_or_app. right. left. reflexivity.
Qed.

Lemma sequence_map_Some {A : Type} (xs : list A) : sequence (map Some xs) = Some xs.
Proof.
  induction xs as [| x xs IH]; simpl; [reflexivity |]. rewrite IH. reflexivity.
Qed.

Lemma dt_hour_timestamps ts :
  dt_hour (map datetime_cell (map Some ts)) = Ok (map VInt (map Timestamp.hour ts)).
Proof.
  unfold dt_hour. induction ts as [| t ts IH]; simpl; [reflexivity |].
  rewrite IH. reflexivity.
Qed.

Section Histogram.
Context {rt : Runtime}.

(** The [time] column of minute strings parses, cell by cell. *)
Lemma minute_stamped_to_datetime (rs : list dict) :
  Forall (fun r => exists ms,
            Timestamp.in_range ms = true /\
            Timestamp.in_range (minute_floor ms) = true /\
            lookup "time" r = Some (VStr (Timestamp.strftime_Ymd_HM ms))) rs ->
  exists ts,
    to_datetime (map (cell "time") rs) = Ok (map Some ts) /\
    List.length ts = List.length rs.
Proof.
  intros H.
  assert (E : exists ts, map parse_cell (map (cell "time") rs) = map Some ts /\
                         List.length ts = List.length rs).
  { induction H as [| r rs (ms & H1 & H2 & Hl) _ (ts & IH & Hlen)].
    - exists []. split; reflexivity.
    - exists (minute_floor ms :: ts). simpl. rewrite IH, Hlen.
      unfold cell. rewrite Hl. simpl.
      rewrite TimestampFacts.parse_strftime by assumption. split; reflexivity. }
  destruct E as (ts & E & Hlen). exists ts. split; [| exact Hlen].
  unfold to_datetime. rewrite E, sequence_map_Some. reflexivity.
Qed.

(** C6. When the filtered frame has rows, each with the minute string of a
    Timestamp as its [time], the histogram is drawn: its counts add up to
    the number of rows, its hours lie between 0 and 23 and they come in
    ascending order.  Without rows there is no histogram. *)
Theorem hourly_counts_histogram (s : state) (filtered_df : ref) (f : DataFrame) :
  nth_error (heap s) filtered_df = Some f ->
  has_column "time" (columns f) = true ->
  minute_stamped f ->
  if empty f then
    time_distribution filtered_df s =
      (Ok None, {| heap := heap s; ui := (ui s ++ [st_info])%list |})
  else
    exists hourly_counts s',
      time_distribution filtered_df s = (Ok (Some hourly_counts), s') /\
      ui s' = (ui s ++ [st_bar_chart hourly_counts])%list /\
      total hourly_counts = List.length (rows f) /\
      Forall (fun bucket => 0 <= fst bucket <= 23) hourly_counts /\
      StronglySorted Z.lt (map fst hourly_counts).
Proof.
  intros Hf Hcol Hstamped.
  assert (Hlt : (filtered_df < List.length (heap s))%nat)
    by (apply nth_error_Some; rewrite Hf; discriminate).
  assert (Hget : get filtered_df s = (Ok f, s))
    by (unfold get; rewrite (nth_error_nth _ _ DataFrame_empty Hf); reflexivity).
  destruct (empty f) eqn:Hempty.
  - unfold time_distribution. unfold mbind at 1. rewrite Hget, Hempty. reflexivity.
  - destruct (minute_stamped_to_datetime (rows f) Hstamped) as (ts & Hts & Hlen).
    set (hours := map VInt (map Timestamp.hour ts)).
    assert (Hlen1 : List.length (map datetime_cell (map Some ts)) = List.length (rows f))
      by (rewrite !length_map; exact Hlen).
    destruct (setcol_getcol f "datetime" _ Hlen1) as (f1 & Hset1 & Hget1 & Hrows1).
    assert (Hlen2 : List.length hours = List.length (rows f1))
      by (unfold hours; rewrite !length_map; lia).
    destruct (setcol_getcol f1 "hour" _ Hlen2) as (f2 & Hset2 & Hget2 & Hrows2).
    exists (sort_index (value_counts hours)).
    eexists.
    split.
    + unfold time_distribution. unfold mbind at 1. rewrite Hget, Hempty. cbn [negb].
      unfold mbind, lift, get, put, emit, ret, getcol. rewrite Hcol.
      rewrite Hts, Hset1. cbn [heap ui].
      rewrite (nth_replace_nth _ _ _ _ Hlt).
      fold (getcol f1 "datetime"). rewrite Hget1, dt_hour_timestamps.
      fold hours. rewrite Hset2. cbn [heap ui].
      rewrite nth_replace_nth by (rewrite replace_nth_length; exact Hlt).
      fold (getcol f2 "hour"). rewrite Hget2. reflexivity.
    + cbn [ui]. split; [reflexivity |].
      destruct (hourly_counts_ints (fun k => 0 <= k <= 23) (map Timestamp.hour ts))
        as (Ht & Hk & Hs).
      { apply Forall_forall. intros k Hk. apply in_map_iff in Hk.
        destruct Hk as (t & <- & _). apply TimestampFacts.hour_range. }
      fold hours in Ht, Hk, Hs.
      split; [rewrite Ht, length_map; exact Hlen |].
      split; [| exact Hs].
      apply Forall_forall. intros bucket Hb.
      rewrite Forall_forall in Hk. apply Hk. apply in_map. exact Hb.
Qed.

(** The frames the script hands to the histogram are of this kind: the
    fetcher stamps every event whose time is an epoch millisecond, and the
    filter keeps rows as they are. *)
Lemma materialises_minute_string item r ms :
  materialises item r -> feature_time item = Ok (VInt ms) ->
  Timestamp.in_range ms = true ->
  lookup "time" r = Some (VStr (Timestamp.strftime_Ymd_HM ms)).
Proof.
  intros (mag & _ & _ & Hrec) Ht Hms.
  apply make_record_inv in Hrec.
  destruct Hrec as (c & lat & lon & place & t & time & radius &
                    _ & _ & _ & _ & Ht' & Hs & _ & ->).
  rewrite Ht in Ht'. injection Ht' as <-.
  unfold time_string, to_datetime_ms in Hs. rewrite Hms in Hs. injection Hs as <-.
  reflexivity.
Qed.

Lemma fetched_frame_minute_stamped resp doc items :
  json resp = Ok doc -> document_items doc = Ok items ->
  (forall item, In item items -> has_magnitude item = true ->
     exists ms, feature_time item = Ok (VInt ms) /\
                Timestamp.in_range ms = true /\
                Timestamp.in_range (minute_floor ms) = true) ->
  minute_stamped (fetched_frame (Ok resp)).
Proof.
  intros Hj Hd Htimes. unfold minute_stamped, fetched_frame.
  destruct (fetch_and_parse (Ok resp)) as [df | e] eqn:E; [| constructor].
  apply fetch_and_parse_inv in E.
  destruct E as (resp' & doc' & items' & records & Hr & Hj' & Hd' & Hl & ->).
  injection Hr as <-. rewrite Hj in Hj'. injection Hj' as <-.
  rewrite Hd in Hd'. injection Hd' as <-. simpl.
  apply Forall_forall. intros r Hin.
  destruct (Forall2_In_r _ _ _ _ (parse_loop_records items records Hl) Hin)
    as (item & Hitem & Hm).
  apply filter_In in Hitem. destruct Hitem as [Hitem Hmag].
  destruct (Htimes item Hitem Hmag) as (ms & Ht & H1 & H2).
  exists ms. split; [exact H1 |]. split; [exact H2 |].
  exact (materialises_minute_string item r ms Hm Ht H1).
Qed.

Lemma filter_minute_stamped df t f :
  filter_by_magnitude df t = Ok f -> minute_stamped df ->
  minute_stamped f /\
  (has_column "time" (columns df) = true -> has_column "time" (columns f) = true).
Proof.
  rewrite filter_by_magnitude_spec.
  destruct (has_column "mag" (columns df)); [| discriminate].
  destruct (forallb numeric (rows df)); [| discriminate].
  intros H. injection H as <-. unfold minute_stamped. simpl. intros Hs.
  split; [| auto].
  apply Forall_forall. intros r Hin. apply filter_In in Hin.
  rewrite Forall_forall in Hs. apply Hs. apply Hin.
Qed.
End Histogram.

Lemma sample_minute_stamped : minute_stamped Sample.filtered.
Proof.
  unfold minute_stamped.
  let rs := eval vm_compute in (rows Sample.filtered) in
  change (rows Sample.filtered) with rs.
  repeat constructor.
  - exists 1700000000123. repeat split; vm_compute; reflexivity.
  - exists 1700003600000. repeat split; vm_compute; reflexivity.
Defined.

Lemma hourly_counts_histogram_witness :
  nth_error (heap Sample.store) 1 = Some Sample.filtered /\
  has_column "time" (columns Sample.filtered) = true /\
  minute_stamped Sample.filtered /\
  exists hourly_counts s',
    time_distribution (rt := Sample.runtime) 1%nat Sample.store =
      (Ok (Some hourly_counts), s') /\
    ui s' = [st_bar_chart hourly_counts] /\
    total hourly_counts = 2%nat /\
    Forall (fun bucket => 0 <= fst bucket <= 23) hourly_counts /\
    StronglySorted Z.lt (map fst hourly_counts).
Proof.
  assert (H1 : nth_error (heap Sample.store) 1 = Some Sample.filtered)
    by reflexivity.
  assert (H2 : has_column "time" (columns Sample.filtered) = true)
    by (vm_compute; reflexivity).
  split; [exact H1 |]. split; [exact H2 |].
  split; [exact sample_minute_stamped |].
  pose proof (hourly_counts_histogram (rt := Sample.runtime) Sample.store 1%nat
                Sample.filtered H1 H2 sample_minute_stamped) as H.
  assert (E : empty Sample.filtered = false) by (vm_compute; reflexivity).
  rewrite E in H.
  assert (L : List.length (rows Sample.filtered) = 2%nat) by (vm_compute; reflexivity).
  rewrite L in H. exact H.
Defined.

(** The histogram of the sample feed at the default threshold. *)
Example script_sample_feed :
  fst (script (rt := Sample.runtime) Sample.feed Sample.default_min_mag initial_state) =
    Ok (0%nat, 1%nat, Some [(22, 1%nat); (23, 1%nat)]).
Proof. vm_compute. reflexivity. Qed.

(** ** The radius

    [visual_radius] is line 30 in binary64.  At magnitude 4, int or float,
    the exponent is zero and the radius is exactly 20000, whatever libm
    does; elsewhere its value is that of libm's [pow], rounded. *)

Lemma visual_radius_at_4 {rt : Runtime} :
  visual_radius (VInt 4) = Ok (VFloat (Float64.of_Z 20000)) /\
  visual_radius (VFloat (Float64.of_Z 4)) = Ok (VFloat (Float64.of_Z 20000)).
Proof. split; reflexivity. Qed.

(** The radius of a record is computed from its magnitude alone. *)
Lemma radius_of_magnitude {rt : Runtime} (item : value) (r : dict) :
  materialises item r ->
  exists mag radius,
    lookup "mag" r = Some mag /\ visual_radius mag = Ok radius /\
    lookup "radius" r = Some radius.
Proof.
  intros (mag & _ & _ & Hrec). apply make_record_inv in Hrec.
  destruct Hrec as (c & lat & lon & place & t & time & radius &
                    _ & _ & _ & _ & _ & _ & Hr & ->).
  exists mag, radius. repeat split. exact Hr.
Qed.

(** * Further properties of the script *)

(** ** The loop over the features *)

Section Loop.
Context {rt : Runtime}.

Lemma parse_loop_app pre : forall post acc,
  parse_loop (pre ++ post) acc = (rs <- parse_loop pre acc ;; parse_loop post rs).
Proof.
  induction pre as [| item pre IH]; intros post acc; simpl; [reflexivity |].
  destruct (getitem item "properties") as [p | e]; simpl; [| reflexivity].
  destruct (getitem p "mag") as [mag | e]; simpl; [| reflexivity].
  destruct (is_not_None mag); [| apply IH].
  destruct (make_record item mag) as [r | e]; simpl; [apply IH | reflexivity].
Qed.

Lemma parse_loop_step item post acc :
  parse_loop (item :: post) acc =
    (mag <- feature_mag item ;;
     if is_not_None mag then
       r <- make_record item mag ;; parse_loop post (acc ++ [r])
     else parse_loop post acc).
Proof.
  unfold feature_mag. simpl.
  destruct (getitem item "properties") as [p | e]; simpl; [| reflexivity].
  destruct (getitem p "mag") as [mag | e]; reflexivity.
Qed.

Lemma feature_raises_step item e post acc :
  feature_raises item e -> parse_loop (item :: post) acc = Raise e.
Proof.
  intros [H | (mag & Hmag & Hnn & Hrec)]; rewrite parse_loop_step.
  - rewrite H. reflexivity.
  - rewrite Hmag. simpl. apply is_not_None_true in Hnn. rewrite Hnn, Hrec. reflexivity.
Qed.

(** A feature whose magnitude is null is skipped before any other of its
    fields is read: it may be dropped from the feed without a change, even
    when nothing else of it is there. *)
Theorem null_magnitude_skipped (pre post : list value) (item : value)
    (acc : list dict) :
  feature_mag item = Ok VNone ->
  parse_loop (pre ++ item :: post) acc = parse_loop (pre ++ post) acc.
Proof.
  intros H. rewrite !parse_loop_app.
  destruct (parse_loop pre acc) as [rs | e]; cbn [bind]; [| reflexivity].
  rewrite parse_loop_step, H. reflexivity.
Qed.

(** The error the fetcher shows is the exception of the first feature that
    raises: when the features before it are normalised and it raises [e],
    the frame is empty and [e] is shown, whatever follows in the feed. *)
Theorem first_failure_reported (resp : response) (doc : value)
    (pre post : list value) (item : value) (records : list dict) (e : exn)
    (s : state) :
  json resp = Ok doc ->
  document_items doc = Ok (pre ++ item :: post)%list ->
  parse_loop pre [] = Ok records ->
  feature_raises item e ->
  get_earthquake_data (Ok resp) s =
    (Ok (List.length (heap s)),
     {| heap := heap s ++ [DataFrame_empty]; ui := ui s ++ [st_error e] |}).
Proof.
  intros Hj Hd Hpre Hraise.
  unfold get_earthquake_data.
  rewrite (fetch_and_parse_items resp doc _ Hj Hd).
  rewrite parse_loop_app, Hpre. cbn [bind].
  rewrite (feature_raises_step item e post records Hraise). reflexivity.
Qed.

(** A magnitude that is neither null nor a number (a string, a list, an
    object) cannot enter line 30. *)
Lemma make_record_not_a_number item mag e0 :
  as_number mag = Raise e0 -> exists e, make_record item mag = Raise e.
Proof.
  intros Hn.
  destruct (make_record item mag) as [r | e] eqn:E; [| eauto].
  apply make_record_inv in E.
  destruct E as (c & lat & lon & place & t & time & radius &
                 _ & _ & _ & _ & _ & _ & Hr & _).
  destruct (visual_radius_numeric mag radius Hr) as [n Hn']. congruence.
Qed.

Lemma parse_loop_raises items :
  (exists item e, In item items /\ feature_raises item e) ->
  forall acc, exists e, parse_loop items acc = Raise e.
Proof.
  induction items as [| item items IH]; intros (bad & e & Hin & Hbad) acc.
  - destruct Hin.
  - destruct Hin as [<- | Hin].
    + exists e. apply feature_raises_step. exact Hbad.
    + rewrite parse_loop_step.
      destruct (feature_mag item) as [mag | e']; simpl; [| eauto].
      destruct (is_not_None mag).
      * destruct (make_record item mag) as [r | e']; simpl; [| eauto].
        apply IH. eauto.
      * apply IH. eauto.
Qed.

(** One feature whose magnitude is not a number discards the whole feed:
    the fetcher returns an empty frame and shows an error, wherever the
    feature stands and however well-formed the others are. *)
Theorem non_numeric_magnitude_discards_feed (resp : response) (doc : value)
    (items : list value) (item mag : value) (e0 : exn) (s : state) :
  json resp = Ok doc ->
  document_items doc = Ok items ->
  In item items ->
  feature_mag item = Ok mag -> mag <> VNone -> as_number mag = Raise e0 ->
  exists e,
    get_earthquake_data (Ok resp) s =
      (Ok (List.length (heap s)),
       {| heap := heap s ++ [DataFrame_empty]; ui := ui s ++ [st_error e] |}).
Proof.
  intros Hj Hd Hin Hmag Hnn Hnum.
  destruct (make_record_not_a_number item mag e0 Hnum) as [e1 He1].
  destruct (parse_loop_raises items) with (acc := @nil dict) as [e He].
  { exists item, e1. split; [exact Hin |]. right. exists mag. auto. }
  exists e. unfold get_earthquake_data.
  rewrite (fetch_and_parse_items resp doc items Hj Hd), He. reflexivity.
Qed.

Lemma add_columns_record_keys_nil : add_columns [] record_keys = record_keys.
Proof. reflexivity. Qed.

Lemma add_columns_record_keys : add_columns record_keys record_keys = record_keys.
Proof. reflexivity. Qed.

Lemma fold_record_keys (records : list dict) :
  Forall (fun r => map fst r = record_keys) records ->
  fold_left (fun cols r => add_columns cols (map fst r)) records record_keys =
    record_keys.
Proof.
  induction 1 as [| r records Hr _ IH]; simpl; [reflexivity |].
  rewrite Hr, add_columns_record_keys. exact IH.
Qed.

(** The frame the fetcher returns is the frame of a list of records, empty
    after a failure, each with the six keys. *)
Lemma fetched_frame_of_records (fetch : result response) :
  exists records,
    fetched_frame fetch = DataFrame_of_records records /\
    Forall (fun r => map fst r = record_keys) records.
Proof.
  unfold fetched_frame.
  destruct (fetch_and_parse fetch) as [df | e] eqn:E.
  - apply fetch_and_parse_inv in E.
    destruct E as (resp & doc & items & records & -> & Hj & Hd & Hl & ->).
    exists records. split; [reflexivity |].
    apply Forall_forall. intros r Hin.
    destruct (Forall2_In_r _ _ _ _ (parse_loop_records items _ Hl) Hin)
      as (item & _ & Hm).
    exact (materialises_keys item r Hm).
  - exists []. split; [reflexivity | constructor].
Qed.

Lemma DataFrame_of_records_keys (r : dict) (records : list dict) :
  Forall (fun r => map fst r = record_keys) (r :: records) ->
  columns (DataFrame_of_records (r :: records)) = record_keys.
Proof.
  intros HK. inversion HK as [| ? ? Hr HK']; subst. simpl.
  rewrite Hr, add_columns_record_keys_nil. apply fold_record_keys. exact HK'.
Qed.

(** The frame the fetcher returns has one of two shapes: no column and no
    row, or the six columns [lat], [lon], [mag], [place], [time], [radius]
    in this order with at least one row, each row binding these six keys. *)
Theorem fetched_frame_schema (fetch : result response) :
  fetched_frame fetch = DataFrame_empty \/
  (columns (fetched_frame fetch) = record_keys /\
   rows (fetched_frame fetch) <> [] /\
   Forall (fun r => map fst r = record_keys) (rows (fetched_frame fetch))).
Proof.
  destruct (fetched_frame_of_records fetch) as (records & -> & HK).
  destruct records as [| r records].
  - left. reflexivity.
  - right. split.
    + apply DataFrame_of_records_keys. exact HK.
    + split; [discriminate | exact HK].
Qed.
End Loop.

Section OneRecordPerFeature.
Context {rt : Runtime}.

(** The record of a feature that has all its fields. *)
Lemma make_record_fields item mag coordinates lat lon place t time radius :
  feature_coordinates item = Ok coordinates ->
  getindex coordinates 1 = Ok lat ->
  getindex coordinates 0 = Ok lon ->
  feature_place item = Ok place ->
  feature_time item = Ok t ->
  time_string t = Ok time ->
  visual_radius mag = Ok radius ->
  make_record item mag =
    Ok [("lat", lat); ("lon", lon); ("mag", mag); ("place", place);
        ("time", time); ("radius", radius)].
Proof.
  unfold make_record, feature_coordinates, feature_place, feature_time.
  intros Hc H1 H0 Hp Ht Hs Hr.
  destruct (getitem item "geometry") as [g | e]; simpl in *; [| discriminate].
  rewrite Hc. simpl. rewrite H1. simpl. rewrite H0. simpl.
  destruct (getitem item "properties") as [p | e]; simpl in *; [| discriminate].
  rewrite Hp. simpl. rewrite Ht. simpl. rewrite Hs. simpl. rewrite Hr. reflexivity.
Qed.

(** A feature with a record is well formed. *)
Lemma materialises_well_formed item r :
  materialises item r -> well_formed_feature item.
Proof.
  intros (mag & Hmag & _ & Hrec). exists mag. split; [exact Hmag |]. right.
  apply make_record_inv in Hrec.
  destruct Hrec as (c & lat & lon & place & t & time & radius &
                    Hc & H1 & H0 & Hp & Ht & Hs & Hr & _).
  exists c, lat, lon, place, t, time, radius. repeat split; assumption.
Qed.

(** A feature is well formed or makes the loop raise. *)
Lemma well_formed_or_raises item :
  well_formed_feature item \/ exists e, feature_raises item e.
Proof.
  destruct (feature_mag item) as [mag | e] eqn:Hmag;
    [| right; exists e; left; exact Hmag].
  destruct (is_not_None mag) eqn:Hn.
  - apply is_not_None_true in Hn.
    destruct (make_record item mag) as [r | e] eqn:Hrec.
    + left. apply (materialises_well_formed item r).
      exists mag. repeat split; assumption.
    + right. exists e. right. exists mag. repeat split; assumption.
  - left. exists mag. split; [exact Hmag |]. left.
    destruct mag; simpl in Hn; try discriminate. reflexivity.
Qed.

(** The loop gets through a list of well-formed features. *)
Lemma parse_loop_completes items :
  Forall well_formed_feature items ->
  exists records, parse_loop items [] = Ok records.
Proof.
  induction 1 as [| item items (mag & Hmag & Hwf) _ (records & IH)].
  - exists []. reflexivity.
  - rewrite parse_loop_cons, Hmag. simpl.
    destruct Hwf as [-> | (c & lat & lon & place & t & time & radius &
                           Hc & H1 & H0 & Hp & Ht & Hs & Hr)].
    + simpl. exists records. exact IH.
    + destruct (is_not_None mag); [| exists records; exact IH].
      rewrite (make_record_fields item mag c lat lon place t time radius)
        by assumption.
      simpl. rewrite IH. simpl. eexists. reflexivity.
Qed.

(** C9, amended. On a feed whose features are all well formed, the
    normaliser returns a frame whose rows are the records of the features
    with a magnitude that is not null, one each and in the order of the
    feed.  On a feed with a feature that raises, the frame returned has
    neither rows nor columns. *)
Theorem one_record_per_feature (resp : response) (doc : value)
    (items : list value) :
  json resp = Ok doc ->
  document_items doc = Ok items ->
  (Forall well_formed_feature items ->
   exists records,
     parse_loop items [] = Ok records /\
     rows (fetched_frame (Ok resp)) = records /\
     Forall2 materialises (filter has_magnitude items) records /\
     List.length records = List.length (filter has_magnitude items)) /\
  ((exists item e, In item items /\ feature_raises item e) ->
   fetched_frame (Ok resp) = DataFrame_empty).
Proof.
  intros Hj Hd. unfold fetched_frame.
  rewrite (fetch_and_parse_items resp doc items Hj Hd).
  split.
  - intros Hwf. destruct (parse_loop_completes items Hwf) as [records Hl].
    pose proof (parse_loop_records items records Hl) as HF.
    exists records. rewrite Hl. simpl.
    split; [reflexivity |]. split; [reflexivity |]. split; [exact HF |].
    symmetry. eapply Forall2_length. exact HF.
  - intros Hbad. destruct (parse_loop_raises items Hbad []) as [e He].
    rewrite He. reflexivity.
Qed.
End OneRecordPerFeature.

Lemma quake_c_materialises :
  materialises (rt := Sample.runtime) Sample.quake_c (nth 1 (rows Sample.frame) []).
Proof.
  exists (VFloat (Sample.decimal 6 1)). split; [reflexivity |].
  split; [discriminate | vm_compute; reflexivity].
Defined.

Lemma quake_d_materialises :
  materialises (rt := Sample.runtime) Sample.quake_d (nth 2 (rows Sample.frame) []).
Proof.
  exists (VInt 3). split; [reflexivity |].
  split; [discriminate | vm_compute; reflexivity].
Defined.

Lemma sample_well_formed :
  Forall (well_formed_feature (rt := Sample.runtime))
    [Sample.quake_a; Sample.quake_null; Sample.quake_c; Sample.quake_d].
Proof.
  repeat constructor.
  - exact (materialises_well_formed _ _ quake_a_materialises).
  - exists VNone. split; [reflexivity | left; reflexivity].
  - exact (materialises_well_formed _ _ quake_c_materialises).
  - exact (materialises_well_formed _ _ quake_d_materialises).
Defined.

Lemma one_record_per_feature_witness :
  let items := [Sample.quake_a; Sample.quake_null; Sample.quake_c; Sample.quake_d] in
  let resp := {| status_code := 200; json := Ok (Sample.document items) |} in
  json resp = Ok (Sample.document items) /\
  document_items (Sample.document items) = Ok items /\
  Forall (well_formed_feature (rt := Sample.runtime)) items /\
  exists records,
    parse_loop (rt := Sample.runtime) items [] = Ok records /\
    rows (fetched_frame (rt := Sample.runtime) (Ok resp)) = records /\
    Forall2 (materialises (rt := Sample.runtime)) (filter has_magnitude items) records /\
    List.length records = 3%nat.
Proof.
  intros items resp.
  split; [reflexivity |]. split; [reflexivity |].
  split; [exact sample_well_formed |].
  destruct (proj1 (one_record_per_feature (rt := Sample.runtime) resp
                     (Sample.document items) items eq_refl eq_refl)
              sample_well_formed)
    as (records & Hl & Hrows & HF & Hlen).
  exists records. split; [exact Hl |]. split; [exact Hrows |].
  split; [exact HF | exact Hlen].
Defined.

Lemma null_magnitude_skipped_witness :
  feature_mag Sample.quake_bare_null = Ok VNone /\
  parse_loop (rt := Sample.runtime)
    ([Sample.quake_a] ++ Sample.quake_bare_null :: [Sample.quake_c]) [] =
  parse_loop (rt := Sample.runtime) ([Sample.quake_a] ++ [Sample.quake_c]) [].
Proof.
  split; [reflexivity |].
  exact (null_magnitude_skipped (rt := Sample.runtime) [Sample.quake_a]
           [Sample.quake_c] Sample.quake_bare_null [] eq_refl).
Defined.

Lemma first_failure_reported_witness :
  let resp := {| status_code := 200;
                 json := Ok (Sample.document
                               ([Sample.quake_a] ++ Sample.quake_malformed ::
                                [Sample.quake_text])%list) |} in
  feature_raises (rt := Sample.runtime) Sample.quake_malformed KeyError /\
  get_earthquake_data (rt := Sample.runtime) (Ok resp) initial_state =
    (Ok 0%nat, {| heap := [DataFrame_empty]; ui := [st_error KeyError] |}).
Proof.
  intros resp.
  assert (Hpre : parse_loop (rt := Sample.runtime) [Sample.quake_a] [] =
                 Ok [hd [] (rows Sample.frame)]) by (vm_compute; reflexivity).
  assert (Hr : feature_raises (rt := Sample.runtime) Sample.quake_malformed KeyError).
  { right. exists (VInt 3). split; [reflexivity |].
    split; [discriminate | reflexivity]. }
  split; [exact Hr |].
  exact (first_failure_reported (rt := Sample.runtime) resp _ [Sample.quake_a]
           [Sample.quake_text] Sample.quake_malformed _ KeyError initial_state
           eq_refl eq_refl Hpre Hr).
Defined.

Lemma non_numeric_magnitude_discards_feed_witness :
  let items := [Sample.quake_a; Sample.quake_text; Sample.quake_c] in
  let resp := {| status_code := 200; json := Ok (Sample.document items) |} in
  In Sample.quake_text items /\
  feature_mag Sample.quake_text = Ok (VStr "5.1") /\
  as_number (VStr "5.1") = Raise TypeError /\
  exists e,
    get_earthquake_data (rt := Sample.runtime) (Ok resp) initial_state =
      (Ok 0%nat, {| heap := [DataFrame_empty]; ui := [st_error e] |}).
Proof.
  intros items resp.
  assert (Hin : In Sample.quake_text items) by (right; left; reflexivity).
  split; [exact Hin |]. split; [reflexivity |]. split; [reflexivity |].
  refine (non_numeric_magnitude_discards_feed (rt := Sample.runtime) resp _ items
            Sample.quake_text (VStr "5.1") TypeError initial_state
            eq_refl eq_refl Hin eq_refl _ eq_refl).
  discriminate.
Defined.

(** ** The filter *)

Lemma filter_passes_twice t1 t2 (rs : list dict) :
  filter (passes t2) (filter (passes t1) rs) =
  filter (fun r => passes t1 r && passes t2 r) rs.
Proof.
  induction rs as [| r rs IH]; simpl; [reflexivity |].
  destruct (passes t1 r); simpl; rewrite IH; reflexivity.
Qed.

Lemma forallb_numeric_filter (p : dict -> bool) (rs : list dict) :
  forallb numeric rs = true -> forallb numeric (filter p rs) = true.
Proof.
  rewrite !forallb_forall. intros H r Hin. apply filter_In in Hin. apply H, Hin.
Qed.

(** Filtering a filtered frame: with the same threshold nothing changes,
    and with two thresholds the order in which they are applied does not
    matter; whenever line 54 returns on a frame it returns on its result. *)
Theorem filter_idempotent_commutes (df f1 f2 : DataFrame) (t1 t2 : spec_float) :
  filter_by_magnitude df t1 = Ok f1 ->
  filter_by_magnitude df t2 = Ok f2 ->
  filter_by_magnitude f1 t1 = Ok f1 /\
  exists f,
    filter_by_magnitude f1 t2 = Ok f /\ filter_by_magnitude f2 t1 = Ok f /\
    rows f = filter (fun r => passes t1 r && passes t2 r) (rows df).
Proof.
  rewrite !filter_by_magnitude_spec.
  destruct (has_column "mag" (columns df)) eqn:Hc; [| discriminate].
  destruct (forallb numeric (rows df)) eqn:Hn; [| discriminate].
  intros H1 H2. injection H1 as <-. injection H2 as <-. simpl.
  rewrite Hc, !forallb_numeric_filter by exact Hn.
  split.
  - rewrite filter_passes_twice. do 2 f_equal.
    apply filter_ext. intros r. destruct (passes t1 r); reflexivity.
  - eexists. split; [reflexivity |]. rewrite !filter_passes_twice.
    split; [| reflexivity]. do 2 f_equal.
    apply filter_ext. intros r. apply andb_comm.
Qed.

(** A row whose magnitude is NaN is shown at no threshold, and a NaN
    threshold shows no row. *)
Theorem nan_never_passes (df f : DataFrame) (t m : spec_float) (r : dict) :
  filter_by_magnitude df t = Ok f ->
  row_magnitude r = Some m ->
  Float64.is_nan m = true \/ Float64.is_nan t = true ->
  ~ In r (rows f).
Proof.
  rewrite filter_by_magnitude_spec.
  destruct (has_column "mag" (columns df)); [| discriminate].
  destruct (forallb numeric (rows df)); [| discriminate].
  intros H Hm Hnan Hin. injection H as <-. simpl in Hin.
  apply filter_In in Hin. destruct Hin as [_ Hp].
  unfold passes in Hp. rewrite Hm in Hp.
  destruct Hnan as [Hnan | Hnan].
  - destruct m; try discriminate Hnan. destruct t; discriminate Hp.
  - destruct t; try discriminate Hnan. discriminate Hp.
Qed.

Lemma sample_frame_not_empty :
  rows (fetched_frame (rt := Sample.runtime) Sample.feed) <> [].
Proof.
  assert (E : List.length (rows (fetched_frame (rt := Sample.runtime) Sample.feed))
              = 3%nat) by (vm_compute; reflexivity).
  intros H. rewrite H in E. discriminate E.
Defined.

Lemma filter_exact_on_events_witness :
  rows (fetched_frame (rt := Sample.runtime) Sample.feed) <> [] /\
  exists f,
    filter_by_magnitude (fetched_frame (rt := Sample.runtime) Sample.feed)
      Sample.default_min_mag = Ok f /\
    rows f = filter (passes Sample.default_min_mag)
               (rows (fetched_frame (rt := Sample.runtime) Sample.feed)).
Proof.
  split; [exact sample_frame_not_empty |].
  destruct (filter_exact_on_events (rt := Sample.runtime) Sample.feed
              Sample.default_min_mag sample_frame_not_empty)
    as (f & Hf & _ & Hrows & _).
  exists f. split; [exact Hf | exact Hrows].
Defined.

Lemma sample_below_8_1 (r : dict) (mag : spec_float) :
  In r (rows (fetched_frame (rt := Sample.runtime) Sample.feed)) ->
  row_magnitude r = Some mag ->
  Float64.ltb mag (Sample.decimal 81 10) = true.
Proof.
  intros Hin.
  assert (E : forallb (fun r => match row_magnitude r with
                                | Some m => Float64.ltb m (Sample.decimal 81 10)
                                | None => false
                                end)
                (rows (fetched_frame (rt := Sample.runtime) Sample.feed)) = true)
    by (vm_compute; reflexivity).
  rewrite forallb_forall in E. specialize (E r Hin).
  intros Hm. rewrite Hm in E. exact E.
Defined.

Lemma filter_above_maximum_witness :
  rows (fetched_frame (rt := Sample.runtime) Sample.feed) <> [] /\
  exists f,
    filter_by_magnitude (fetched_frame (rt := Sample.runtime) Sample.feed)
      (Sample.decimal 81 10) = Ok f /\
    rows f = [].
Proof.
  split; [exact sample_frame_not_empty |].
  exact (filter_above_maximum (rt := Sample.runtime) Sample.feed
           (Sample.decimal 81 10) sample_frame_not_empty sample_below_8_1).
Defined.

Lemma filter_idempotent_commutes_witness :
  let df := fetched_frame (rt := Sample.runtime) Sample.feed in
  filter_by_magnitude df (Sample.decimal 25 10) = Ok df /\
  filter_by_magnitude df Sample.default_min_mag = Ok Sample.filtered /\
  filter_by_magnitude Sample.filtered Sample.default_min_mag = Ok Sample.filtered.
Proof.
  intros df.
  assert (H1 : filter_by_magnitude df (Sample.decimal 25 10) = Ok df)
    by (vm_compute; reflexivity).
  assert (H2 : filter_by_magnitude df Sample.default_min_mag = Ok Sample.filtered)
    by (vm_compute; reflexivity).
  split; [exact H1 |]. split; [exact H2 |].
  exact (proj1 (filter_idempotent_commutes df Sample.filtered df
                  Sample.default_min_mag (Sample.decimal 25 10) H2 H1)).
Defined.

Lemma nan_never_passes_witness :
  let fetch := Sample.ok_response (Sample.document [Sample.quake_a; Sample.quake_nan]) in
  let df := fetched_frame (rt := Sample.runtime) fetch in
  let r := nth 1 (rows df) [] in
  In r (rows df) /\
  row_magnitude r = Some S754_nan /\
  exists f,
    filter_by_magnitude df (Sample.decimal 25 10) = Ok f /\ ~ In r (rows f).
Proof.
  intros fetch df r.
  assert (Hin : In r (rows df)) by (vm_compute; right; left; reflexivity).
  assert (Hm : row_magnitude r = Some S754_nan) by (vm_compute; reflexivity).
  destruct (filter_by_magnitude df (Sample.decimal 25 10)) as [f | e] eqn:Hf;
    [| vm_compute in Hf; discriminate Hf].
  split; [exact Hin |]. split; [exact Hm |].
  exists f. split; [reflexivity |].
  exact (nan_never_passes df f (Sample.decimal 25 10) S754_nan r Hf Hm
           (or_introl eq_refl)).
Defined.

(** ** The histogram, bucket by bucket *)

Lemma mbind_run {A B : Type} (c : M A) (k : A -> M B) s a s1 :
  c s = (Ok a, s1) -> mbind c k s = k a s1.
Proof. unfold mbind. intros ->. reflexivity. Qed.

Lemma get_run (s : state) (r : ref) (f : DataFrame) :
  nth_error (heap s) r = Some f -> get r s = (Ok f, s).
Proof.
  intros H. unfold get. rewrite (nth_error_nth _ _ DataFrame_empty H). reflexivity.
Qed.

Lemma replace_nth_twice {A : Type} n (x y : A) l :
  replace_nth n y (replace_nth n x l) = replace_nth n y l.
Proof.
  revert n. induction l as [| z l IH]; intros [| n]; simpl; try reflexivity.
  rewrite IH. reflexivity.
Qed.

Lemma nth_error_replace_nth {A : Type} n (x : A) l :
  (n < List.length l)%nat -> nth_error (replace_nth n x l) n = Some x.
Proof.
  revert n. induction l as [| y l IH]; intros [| n] H; simpl in *; try lia.
  - reflexivity.
  - apply IH. lia.
Qed.

Section Buckets.
Context {rt : Runtime}.

(** Lines 106-116 on a frame with rows whose [time] column parses to the
    Timestamps [ts]. *)
Lemma time_distribution_runs (s : state) (fr : ref) (f : DataFrame) (ts : list Z) :
  nth_error (heap s) fr = Some f ->
  has_column "time" (columns f) = true ->
  empty f = false ->
  to_datetime (map (cell "time") (rows f)) = Ok (map Some ts) ->
  List.length ts = List.length (rows f) ->
  let hour := map VInt (map Timestamp.hour ts) in
  let hourly_counts := sort_index (value_counts hour) in
  exists f1 f2,
    setcol f "datetime" (map datetime_cell (map Some ts)) = Ok f1 /\
    setcol f1 "hour" hour = Ok f2 /\
    time_distribution fr s =
      (Ok (Some hourly_counts),
       {| heap := replace_nth fr f2 (heap s);
          ui := ui s ++ [st_bar_chart hourly_counts] |}).
Proof.
  intros Hf Hcol Hempty Hts Hlen hour hourly_counts.
  assert (Hlt : (fr < List.length (heap s))%nat)
    by (apply nth_error_Some; rewrite Hf; discriminate).
  assert (Hlen1 : List.length (map datetime_cell (map Some ts)) = List.length (rows f))
    by (rewrite !length_map; exact Hlen).
  destruct (setcol_getcol f "datetime" _ Hlen1) as (f1 & Hset1 & Hget1 & Hrows1).
  assert (Hlen2 : List.length hour = List.length (rows f1))
    by (unfold hour; rewrite !length_map; lia).
  destruct (setcol_getcol f1 "hour" _ Hlen2) as (f2 & Hset2 & Hget2 & Hrows2).
  exists f1, f2. split; [exact Hset1 |]. split; [exact Hset2 |].
  unfold time_distribution. rewrite (mbind_run _ _ _ _ _ (get_run s fr f Hf)).
  rewrite Hempty. cbn [negb].
  unfold mbind, lift, get, put, emit, ret, getcol. rewrite Hcol.
  rewrite Hts, Hset1. cbn [heap ui].
  rewrite (nth_replace_nth _ _ _ _ Hlt).
  fold (getcol f1 "datetime"). rewrite Hget1, dt_hour_timestamps.
  fold hour. rewrite Hset2. cbn [heap ui].
  rewrite nth_replace_nth by (rewrite replace_nth_length; exact Hlt).
  fold (getcol f2 "hour"). rewrite Hget2, replace_nth_twice. reflexivity.
Qed.

Lemma stamped_to_datetime (rs : list dict) (times : list Z) :
  Forall2 stamped rs times ->
  to_datetime (map (cell "time") rs) = Ok (map Some (map minute_floor times)).
Proof.
  intros H.
  assert (E : map parse_cell (map (cell "time") rs) =
              map Some (map minute_floor times)).
  { induction H as [| r ms rs times (H1 & H2 & Hl) _ IH]; [reflexivity |].
    simpl. rewrite IH. unfold cell. rewrite Hl. simpl.
    rewrite TimestampFacts.parse_strftime by assumption. reflexivity. }
  unfold to_datetime. rewrite E, sequence_map_Some. reflexivity.
Qed.
End Buckets.

Lemma count_of_count_add k k' counts :
  count_of k (count_add k' counts) =
    if k =? k' then S (count_of k counts) else count_of k counts.
Proof.
  induction counts as [| [k0 n] counts IH]; simpl.
  - destruct (k =? k'); reflexivity.
  - destruct (k' =? k0) eqn:E0; simpl.
    + apply Z.eqb_eq in E0. subst k0.
      destruct (k =? k') eqn:E; [reflexivity | reflexivity].
    + destruct (k =? k0) eqn:E1.
      * apply Z.eqb_eq in E1. subst k0. rewrite Z.eqb_sym, E0. reflexivity.
      * exact IH.
Qed.

Lemma count_of_tally k (ks : list Z) : forall counts,
  count_of k (tally (map VInt ks) counts) =
    (count_occ Z.eq_dec ks k + count_of k counts)%nat.
Proof.
  induction ks as [| k' ks IH]; intros counts; simpl; [reflexivity |].
  rewrite IH, count_of_count_add.
  destruct (Z.eq_dec k' k) as [-> | Hne].
  - rewrite Z.eqb_refl. lia.
  - destruct (Z.eqb_spec k k'); [congruence | reflexivity].
Qed.

Lemma count_of_In k n counts :
  NoDup (map fst counts) -> In (k, n) counts -> count_of k counts = n.
Proof.
  induction counts as [| [k' n'] counts IH]; intros Hn Hin; [destruct Hin |].
  simpl in Hn. inversion Hn as [| ? ? Hnotin Hn']; subst. simpl.
  destruct Hin as [E | Hin].
  - injection E as -> ->. rewrite Z.eqb_refl. reflexivity.
  - destruct (Z.eqb_spec k k') as [-> | _]; [| apply IH; assumption].
    exfalso. apply Hnotin. apply (in_map fst) in Hin. exact Hin.
Qed.

Lemma count_of_absent k counts : ~ In k (map fst counts) -> count_of k counts = O.
Proof.
  induction counts as [| [k' n'] counts IH]; intros H; simpl; [reflexivity |].
  simpl in H. destruct (Z.eqb_spec k k') as [-> | _]; [tauto |].
  apply IH. tauto.
Qed.

Lemma count_of_perm k l l' :
  NoDup (map fst l) -> Permutation l l' -> count_of k l = count_of k l'.
Proof.
  intros Hn Hp.
  assert (Hn' : NoDup (map fst l'))
    by (eapply Permutation_NoDup; [apply Permutation_map; exact Hp | exact Hn]).
  destruct (in_dec Z.eq_dec k (map fst l)) as [Hin | Hout].
  - apply in_map_iff in Hin. destruct Hin as ([k0 n] & E & Hin). simpl in E. subst k0.
    rewrite (count_of_In k n l Hn Hin).
    symmetry. apply count_of_In; [exact Hn' |].
    eapply Permutation_in; eassumption.
  - rewrite (count_of_absent k l Hout). symmetry. apply count_of_absent.
    intros Hin. apply Hout.
    eapply Permutation_in; [apply Permutation_map; symmetry; exact Hp | exact Hin].
Qed.

Lemma tally_keys k (ks : list Z) : forall counts,
  In k (map fst (tally (map VInt ks) counts)) <-> In k ks \/ In k (map fst counts).
Proof.
  induction ks as [| k' ks IH]; intros counts; simpl; [tauto |].
  rewrite IH, count_add_keys.
  destruct (existsb (Z.eqb k') (map fst counts)) eqn:E.
  - apply existsb_exists in E. destruct E as (x & Hx & E). apply Z.eqb_eq in E. subst x.
    split; [tauto |]. intros [[-> | H] | H]; tauto.
  - rewrite in_app_iff. simpl. tauto.
Qed.

(** [value_counts().sort_index()] counts every int of the column under its
    own key. *)
Lemma hourly_counts_count (ks : list Z) (k : Z) :
  let counts := sort_index (value_counts (map VInt ks)) in
  count_of k counts = count_occ Z.eq_dec ks k /\
  (In k (map fst counts) <-> In k ks).
Proof.
  intros counts.
  destruct (tally_ints (fun _ => True) ks []) as (_ & _ & Hd);
    [apply Forall_forall; trivial | constructor | constructor |].
  assert (Hp : Permutation (tally (map VInt ks) []) counts).
  { unfold counts, sort_index, value_counts. rewrite !sort_by_perm. reflexivity. }
  split.
  - rewrite <- (count_of_perm k _ _ Hd Hp), count_of_tally. simpl. lia.
  - pose proof (tally_keys k ks []) as Hk. simpl in Hk.
    split; intros H.
    + assert (H' : In k (map fst (tally (map VInt ks) []))).
      { eapply Permutation_in; [apply Permutation_map; symmetry; exact Hp |].
        exact H. }
      apply Hk in H'. destruct H' as [H' | []]. exact H'.
    + eapply Permutation_in; [apply Permutation_map; exact Hp |].
      apply Hk. left. exact H.
Qed.

Section BucketsClaims.
Context {rt : Runtime}.

(** Each bucket of the histogram counts the rows whose event falls in that
    hour of the day, in UTC: the count under hour [k] is the number of rows
    whose epoch millisecond [ms] has [(ms / 3600000) mod 24 = k], and an
    hour has a bucket exactly when some row falls in it.  The truncation
    of the time to the minute loses nothing here. *)
Theorem hourly_counts_per_hour (s : state) (filtered_df : ref) (f : DataFrame)
    (times : list Z) :
  nth_error (heap s) filtered_df = Some f ->
  has_column "time" (columns f) = true ->
  empty f = false ->
  Forall2 stamped (rows f) times ->
  exists hourly_counts s',
    time_distribution filtered_df s = (Ok (Some hourly_counts), s') /\
    forall k,
      count_of k hourly_counts =
        count_occ Z.eq_dec (map (fun ms => (ms / 3600000) mod 24) times) k /\
      (In k (map fst hourly_counts) <->
       In k (map (fun ms => (ms / 3600000) mod 24) times)).
Proof.
  intros Hf Hcol Hempty Hst.
  pose proof (stamped_to_datetime (rows f) times Hst) as Hts.
  assert (Hlen : List.length (map minute_floor times) = List.length (rows f))
    by (rewrite length_map; symmetry; eapply Forall2_length; exact Hst).
  destruct (time_distribution_runs s filtered_df f _ Hf Hcol Hempty Hts Hlen)
    as (f1 & f2 & _ & _ & Hrun).
  eexists. eexists. split; [exact Hrun |].
  intros k.
  assert (E : map Timestamp.hour (map minute_floor times) =
              map (fun ms => (ms / 3600000) mod 24) times).
  { rewrite map_map. apply map_ext. intros ms.
    apply TimestampFacts.hour_minute_floor. }
  rewrite E. apply hourly_counts_count.
Qed.

Lemma lookup_dict_set_other c c' v d :
  c <> c' -> lookup c (dict_set c' v d) = lookup c d.
Proof.
  intros Hne. induction d as [| [k x] d IH]; simpl.
  - destruct (String.eqb_spec c c'); [congruence | reflexivity].
  - destruct (String.eqb c' k) eqn:E; simpl.
    + apply String.eqb_eq in E. subst k.
      destruct (String.eqb_spec c c'); [congruence | reflexivity].
    + destruct (String.eqb c k); [reflexivity | exact IH].
Qed.

Lemma set_cells_other c c' col : forall rs,
  c <> c' -> List.length col = List.length rs ->
  map (cell c) (set_cells c' rs col) = map (cell c) rs.
Proof.
  induction col as [| v col IH]; intros [| r rs] Hne H; simpl in *;
    try discriminate; [reflexivity |].
  rewrite IH by (auto; lia). unfold cell at 1 3.
  rewrite lookup_dict_set_other by exact Hne. reflexivity.
Qed.

Lemma setcol_inv df c col df' :
  setcol df c col = Ok df' ->
  List.length col = List.length (rows df) /\
  df' = {| columns := if has_column c (columns df) then columns df
                      else (columns df ++ [c])%list;
           rows := set_cells c (rows df) col |}.
Proof.
  unfold setcol. destruct (Nat.eqb_spec (List.length col) (List.length (rows df)));
    [| discriminate].
  intros H. injection H as <-. split; [assumption | reflexivity].
Qed.

(** The histogram code extends the filtered frame in place: after it the
    object behind [filtered_df] has the two more columns [datetime] and
    [hour], as many rows as before, and in every other column the cells it
    had. *)
Theorem histogram_extends_filtered_frame (s : state) (filtered_df : ref)
    (f : DataFrame) (times : list Z) :
  nth_error (heap s) filtered_df = Some f ->
  has_column "time" (columns f) = true ->
  has_column "datetime" (columns f) = false ->
  has_column "hour" (columns f) = false ->
  empty f = false ->
  Forall2 stamped (rows f) times ->
  exists f',
    nth_error (heap (snd (time_distribution filtered_df s))) filtered_df = Some f' /\
    columns f' = (columns f ++ ["datetime"; "hour"])%list /\
    getcol f' "datetime" = Ok (map (fun ms => VTimestamp (minute_floor ms)) times) /\
    List.length (rows f') = List.length (rows f) /\
    forall c, c <> "datetime" -> c <> "hour" ->
              map (cell c) (rows f') = map (cell c) (rows f).
Proof.
  intros Hf Hcol Hdt Hhour Hempty Hst.
  assert (Hlt : (filtered_df < List.length (heap s))%nat)
    by (apply nth_error_Some; rewrite Hf; discriminate).
  pose proof (stamped_to_datetime (rows f) times Hst) as Hts.
  assert (Hlen : List.length (map minute_floor times) = List.length (rows f))
    by (rewrite length_map; symmetry; eapply Forall2_length; exact Hst).
  destruct (time_distribution_runs s filtered_df f _ Hf Hcol Hempty Hts Hlen)
    as (f1 & f2 & Hset1 & Hset2 & Hrun).
  rewrite Hrun. cbn [snd heap].
  exists f2. split; [apply nth_error_replace_nth; exact Hlt |].
  apply setcol_inv in Hset1. destruct Hset1 as [Hl1 ->].
  apply setcol_inv in Hset2. destruct Hset2 as [Hl2 ->].
  cbn [columns rows] in *. rewrite Hdt in *.
  assert (Hh : has_column "hour" (columns f ++ ["datetime"]) = false).
  { destruct (has_column "hour" (columns f ++ ["datetime"])) eqn:E; [| reflexivity].
    apply has_column_In in E. apply in_app_or in E. destruct E as [E | [E | []]].
    - apply has_column_In in E. congruence.
    - discriminate E. }
  rewrite Hh.
  destruct (set_cells_read "datetime" _ (rows f) Hl1) as [Hread1 Hlen1].
  destruct (set_cells_read "hour" _ _ Hl2) as [Hread2 Hlen2].
  split; [rewrite <- app_assoc; reflexivity |].
  split.
  - unfold getcol. cbn [columns rows].
    replace (has_column "datetime" ((columns f ++ ["datetime"]) ++ ["hour"]))
      with true
      by (symmetry; apply has_column_In; apply in_or_app; left;
          apply in_or_app; right; left; reflexivity).
    rewrite set_cells_other by (try discriminate; exact Hl2).
    rewrite Hread1, !map_map. reflexivity.
  - split; [rewrite Hlen2, Hlen1; reflexivity |].
    intros c Hc1 Hc2.
    rewrite set_cells_other by (try exact Hc2; exact Hl2).
    apply set_cells_other; [exact Hc1 | exact Hl1].
Qed.
End BucketsClaims.

(** ** The whole script *)

Lemma series_max_from_numeric (col : list value) : forall best,
  Forall (fun x => exists n, as_number x = Ok n) col ->
  exists v, series_max_from best col = Ok v.
Proof.
  induction col as [| x col IH]; intros best H; simpl; [eauto |].
  inversion H as [| ? ? [n Hn] H']; subst. rewrite Hn. simpl.
  destruct (Float64.is_nan (float_of_number n)); [apply IH; exact H' |].
  destruct best as [[v fb] |]; [| apply IH; exact H'].
  destruct (Float64.ltb fb (float_of_number n)); apply IH; exact H'.
Qed.

Lemma numeric_as_number (r : dict) :
  numeric r = true -> exists n, as_number (cell "mag" r) = Ok n.
Proof.
  unfold numeric, row_magnitude.
  destruct (as_number (cell "mag" r)) as [n | e]; [eauto | discriminate].
Qed.

Section Page.
Context {rt : Runtime}.

Lemma metrics_runs (s : state) (fr : ref) (f : DataFrame) (t : spec_float) :
  nth_error (heap s) fr = Some f ->
  has_column "mag" (columns f) = true ->
  forallb numeric (rows f) = true ->
  exists top,
    metrics fr t s =
      (Ok tt, {| heap := heap s;
                 ui := ui s ++ [st_metric_count (List.length (rows f));
                                st_metric_max top; st_metric_threshold t] |}).
Proof.
  intros Hf Hcol Hnum. unfold metrics.
  rewrite (mbind_run _ _ _ _ _ (get_run s fr f Hf)).
  assert (Hmax : exists top,
            (if negb (empty f)
             then let* mag := lift (getcol f "mag") in lift (series_max mag)
             else ret (VInt 0)) =
            (fun s => (Ok top, s))).
  { destruct (empty f); cbn [negb]; [exists (VInt 0); reflexivity |].
    destruct (series_max_from_numeric (map (cell "mag") (rows f)) None) as [v Hv].
    { apply Forall_forall. intros x Hx. apply in_map_iff in Hx.
      destruct Hx as (r & <- & Hr). apply numeric_as_number.
      rewrite forallb_forall in Hnum. apply Hnum. exact Hr. }
    exists v. unfold mbind, lift, getcol, series_max. rewrite Hcol, Hv. reflexivity. }
  destruct Hmax as [top Hmax]. exists top. rewrite Hmax.
  unfold mbind, emit. cbn [heap ui]. rewrite <- !app_assoc. reflexivity.
Qed.

Lemma map_layer_runs (s : state) (fr : ref) (f : DataFrame) :
  nth_error (heap s) fr = Some f ->
  map_layer fr s =
    (Ok tt, {| heap := heap s;
               ui := ui s ++ [if empty f then st_warning
                              else st_pydeck_chart (rows f)] |}).
Proof.
  intros Hf. unfold map_layer.
  rewrite (mbind_run _ _ _ _ _ (get_run s fr f Hf)).
  destruct (empty f); reflexivity.
Qed.

Lemma data_table_runs (s : state) (fr : ref) (f : DataFrame) :
  nth_error (heap s) fr = Some f ->
  (forall c, In c record_keys -> has_column c (columns f) = true) ->
  exists table,
    data_table fr s =
      (Ok tt, {| heap := heap s; ui := ui s ++ [st_dataframe table] |}) /\
    columns table = ["time"; "place"; "mag"; "lat"; "lon"] /\
    List.length (rows table) = List.length (rows f).
Proof.
  intros Hf Hcols. unfold data_table.
  rewrite (mbind_run _ _ _ _ _ (get_run s fr f Hf)).
  unfold select_columns. cbn [forallb].
  rewrite !Hcols by (unfold record_keys; simpl; tauto). cbn [andb].
  eexists. split; [reflexivity |]. split; [reflexivity |].
  cbn [rows]. apply length_map.
Qed.

(** On a feed without a single event to show - the fetch failed, or no
    feature has a magnitude - the script stops at line 54 with a
    [KeyError]: the page shows the error of the fetch, if there was one,
    and nothing else, neither title nor warning. *)
Theorem script_stops_without_events (fetch : result response)
    (min_mag : spec_float) (s : state) :
  rows (fetched_frame fetch) = [] ->
  script fetch min_mag s =
    (Raise KeyError,
     {| heap := heap s ++ [DataFrame_empty];
        ui := match fetch_and_parse fetch with
              | Ok _ => ui s
              | Raise e => ui s ++ [st_error e]
              end |}).
Proof.
  intros Hrows.
  assert (Hframe : fetched_frame fetch = DataFrame_empty).
  { destruct (fetched_frame_of_records fetch) as (records & E & _).
    rewrite E in Hrows |- *. simpl in Hrows. subst records. reflexivity. }
  unfold script, get_earthquake_data. unfold fetched_frame in Hframe.
  destruct (fetch_and_parse fetch) as [df | e]; subst.
  - unfold mbind at 1. unfold new at 1. cbn iota beta.
    unfold process, mbind, get, lift. cbn [heap].
    rewrite nth_middle. reflexivity.
  - unfold mbind at 1 2. unfold emit, new. cbn [heap ui].
    unfold process, mbind, get, lift. cbn [heap].
    rewrite nth_middle. reflexivity.
Qed.

(** On a feed with at least one event, all at epoch-millisecond times, the
    script runs to its end at every threshold, and the page is: the title,
    the number of rows at or above the threshold, the magnitude metric, the
    threshold, the map of these rows or a warning when there are none, the
    table of their five columns, and the histogram or a note when there are
    none. *)
Theorem script_completes (resp : response) (doc : value) (items : list value)
    (min_mag : spec_float) (s : state) :
  json resp = Ok doc ->
  document_items doc = Ok items ->
  (forall item, In item items -> has_magnitude item = true -> epoch_time item) ->
  rows (fetched_frame (Ok resp)) <> [] ->
  exists f top table hourly_counts s',
    columns f = record_keys /\
    rows f = filter (passes min_mag) (rows (fetched_frame (Ok resp))) /\
    columns table = ["time"; "place"; "mag"; "lat"; "lon"] /\
    List.length (rows table) = List.length (rows f) /\
    script (Ok resp) min_mag s =
      (Ok (List.length (heap s), S (List.length (heap s)),
           if empty f then None else Some hourly_counts), s') /\
    ui s' = (ui s ++ page min_mag f top table hourly_counts)%list.
Proof.
  intros Hj Hd Htimes Hne.
  (* the fetched frame *)
  assert (Hcols : columns (fetched_frame (Ok resp)) = record_keys).
  { destruct (fetched_frame_of_records (Ok resp)) as (records & E & HK).
    rewrite E in Hne |- *. destruct records as [| r records];
      [exfalso; apply Hne; reflexivity |].
    apply DataFrame_of_records_keys. exact HK. }
  destruct (fetched_frame_rows (Ok resp) Hne) as [HA Hhas].
  pose proof (fetched_frame_minute_stamped resp doc items Hj Hd Htimes) as Hstamped.
  assert (Hfetch : fetch_and_parse (Ok resp) = Ok (fetched_frame (Ok resp))).
  { unfold fetched_frame in *.
    destruct (fetch_and_parse (Ok resp)); [reflexivity |].
    exfalso. apply Hne. reflexivity. }
  set (df := fetched_frame (Ok resp)) in *. clearbody df.
  assert (Hnum : forallb numeric (rows df) = true).
  { apply forallb_forall. intros r Hin. rewrite Forall_forall in HA.
    destruct (HA r Hin) as [item Hm]. exact (materialises_numeric item r Hm). }
  (* the filtered frame *)
  set (f := {| columns := columns df; rows := filter (passes min_mag) (rows df) |}).
  assert (Hfilter : filter_by_magnitude df min_mag = Ok f).
  { rewrite filter_by_magnitude_spec, Hhas, Hnum by (simpl; tauto). reflexivity. }
  assert (Hfnum : forallb numeric (rows f) = true)
    by (apply forallb_numeric_filter; exact Hnum).
  assert (Hfhas : forall c, In c record_keys -> has_column c (columns f) = true)
    by (intros c Hc; apply Hhas; exact Hc).
  (* the run *)
  set (s1 := {| heap := heap s ++ [df]; ui := ui s |}).
  set (s2 := {| heap := (heap s ++ [df]) ++ [f]; ui := ui s |}).
  set (fr := S (List.length (heap s))).
  assert (Hfr : forall u, nth_error (heap {| heap := heap s2; ui := u |}) fr = Some f).
  { intros u. cbn [heap]. unfold s2, fr. cbn [heap].
    assert (L : List.length (heap s ++ [df]) = S (List.length (heap s)))
      by (rewrite length_app; simpl; lia).
    rewrite nth_error_app2 by (rewrite L; lia).
    rewrite L, Nat.sub_diag. reflexivity. }
  destruct (metrics_runs {| heap := heap s2; ui := ui s ++ [st_title min_mag] |}
              fr f min_mag (Hfr _) (Hfhas "mag" ltac:(simpl; tauto)) Hfnum)
    as [top Hmetrics].
  cbn [heap ui] in Hmetrics.
  set (u3 := ((ui s ++ [st_title min_mag]) ++
              [st_metric_count (List.length (rows f)); st_metric_max top;
               st_metric_threshold min_mag])%list) in *.
  pose proof (map_layer_runs {| heap := heap s2; ui := u3 |} fr f (Hfr _)) as Hmap.
  cbn [heap ui] in Hmap.
  set (u4 := (u3 ++ [if empty f then st_warning
                     else st_pydeck_chart (rows f)])%list) in *.
  destruct (data_table_runs {| heap := heap s2; ui := u4 |} fr f (Hfr _) Hfhas)
    as (table & Htable & Htcols & Htlen).
  cbn [heap ui] in Htable.
  set (u5 := (u4 ++ [st_dataframe table])%list) in *.
  assert (Hdist : exists hourly_counts s',
            time_distribution fr {| heap := heap s2; ui := u5 |} =
              (Ok (if empty f then None else Some hourly_counts), s') /\
            ui s' = (u5 ++ [if empty f then st_info else st_bar_chart hourly_counts])%list).
  { destruct (empty f) eqn:Hempty.
    - exists [], {| heap := heap s2; ui := u5 ++ [st_info] |}.
      split; [| reflexivity].
      unfold time_distribution.
      rewrite (mbind_run _ _ _ _ _ (get_run _ fr f (Hfr u5))), Hempty. reflexivity.
    - destruct (filter_minute_stamped df min_mag f Hfilter Hstamped) as [Hfst _].
      destruct (minute_stamped_to_datetime (rows f) Hfst) as (ts & Hts & Hlen).
      destruct (time_distribution_runs {| heap := heap s2; ui := u5 |} fr f ts
                  (Hfr u5) (Hfhas "time" ltac:(simpl; tauto)) Hempty Hts Hlen)
        as (f1 & f2 & _ & _ & Hrun).
      eexists. eexists. split; [exact Hrun | reflexivity]. }
  destruct Hdist as (hourly_counts & s' & Hdist & Hui).
  exists f, top, table, hourly_counts, s'.
  split; [exact Hcols |]. split; [reflexivity |].
  split; [exact Htcols |]. split; [exact Htlen |].
  split.
  - unfold script, get_earthquake_data. rewrite Hfetch.
    unfold mbind at 1. unfold new at 1. cbn iota beta. fold s1.
    unfold process.
    assert (Hget : get (List.length (heap s)) s1 = (Ok df, s1)).
    { apply get_run. unfold s1. cbn [heap].
      rewrite nth_error_app2, Nat.sub_diag by lia. reflexivity. }
    unfold mbind at 1. rewrite (mbind_run _ _ _ _ _ Hget).
    unfold mbind at 1. unfold lift at 1. rewrite Hfilter.
    unfold mbind at 1. unfold new at 1. cbn iota beta.
    replace (List.length (heap s1)) with fr
      by (unfold s1, fr; cbn [heap]; rewrite length_app; simpl; lia).
    change {| heap := heap s1 ++ [f]; ui := ui s1 |} with s2.
    unfold mbind at 1. unfold emit at 1. cbn iota beta.
    change (heap s2) with (heap s2).
    rewrite (mbind_run _ _ _ _ _ Hmetrics).
    rewrite (mbind_run _ _ _ _ _ Hmap).
    rewrite (mbind_run _ _ _ _ _ Htable).
    rewrite (mbind_run _ _ _ _ _ Hdist).
    reflexivity.
  - rewrite Hui. unfold u5, u4, u3, page. rewrite <- !app_assoc. reflexivity.
Qed.
End Page.

(** ** The minute string *)

(** Two events carry the same [time] string exactly when they fall in the
    same minute. *)
Theorem minute_string_same_minute (a b : Z) :
  Timestamp.in_range a = true -> Timestamp.in_range b = true ->
  (Timestamp.strftime_Ymd_HM a = Timestamp.strftime_Ymd_HM b <->
   a / 60000 = b / 60000).
Proof.
  intros Ha Hb. split.
  - intros E.
    pose proof (TimestampFacts.decode_strftime a Ha) as Da.
    pose proof (TimestampFacts.decode_strftime b Hb) as Db.
    rewrite E, Db in Da. injection Da as Da. unfold minute_floor in Da. lia.
  - intros E.
    rewrite <- (TimestampFacts.strftime_minute_floor a),
            <- (TimestampFacts.strftime_minute_floor b).
    unfold minute_floor. rewrite E. reflexivity.
Qed.

Lemma minute_string_same_minute_witness :
  Timestamp.in_range 1700000000123 = true /\
  Timestamp.in_range 1700000039999 = true /\
  Timestamp.strftime_Ymd_HM 1700000000123 = Timestamp.strftime_Ymd_HM 1700000039999.
Proof.
  split; [reflexivity |]. split; [reflexivity |].
  apply (minute_string_same_minute 1700000000123 1700000039999 eq_refl eq_refl).
  reflexivity.
Defined.

(** ** Witnesses on the sample feed *)

Lemma sample_stamped :
  Forall2 stamped (rows Sample.filtered) [1700000000123; 1700003600000].
Proof.
  let rs := eval vm_compute in (rows Sample.filtered) in
  change (rows Sample.filtered) with rs.
  repeat constructor; vm_compute; reflexivity.
Defined.

Lemma sample_filtered_not_empty : empty Sample.filtered = false.
Proof. vm_compute. reflexivity. Defined.

Lemma sample_filtered_columns (c : string) :
  In c ["time"; "datetime"; "hour"] ->
  has_column c (columns Sample.filtered) = if String.eqb c "time" then true else false.
Proof.
  intros [<- | [<- | [<- | []]]]; vm_compute; reflexivity.
Defined.

Lemma hourly_counts_per_hour_witness :
  nth_error (heap Sample.store) 1 = Some Sample.filtered /\
  Forall2 stamped (rows Sample.filtered) [1700000000123; 1700003600000] /\
  exists hourly_counts s',
    time_distribution (rt := Sample.runtime) 1%nat Sample.store =
      (Ok (Some hourly_counts), s') /\
    count_of 22 hourly_counts = 1%nat /\ count_of 23 hourly_counts = 1%nat /\
    count_of 0 hourly_counts = 0%nat.
Proof.
  split; [reflexivity |]. split; [exact sample_stamped |].
  destruct (hourly_counts_per_hour (rt := Sample.runtime) Sample.store 1%nat
              Sample.filtered [1700000000123; 1700003600000] eq_refl
              (sample_filtered_columns "time" (or_introl eq_refl))
              sample_filtered_not_empty sample_stamped)
    as (hourly_counts & s' & Hrun & Hcount).
  exists hourly_counts, s'. split; [exact Hrun |].
  split; [exact (proj1 (Hcount 22)) |].
  split; [exact (proj1 (Hcount 23)) | exact (proj1 (Hcount 0))].
Defined.

Lemma histogram_extends_filtered_frame_witness :
  nth_error (heap Sample.store) 1 = Some Sample.filtered /\
  has_column "datetime" (columns Sample.filtered) = false /\
  has_column "hour" (columns Sample.filtered) = false /\
  exists f',
    nth_error
      (heap (snd (time_distribution (rt := Sample.runtime) 1%nat Sample.store)))
      1 = Some f' /\
    columns f' = (columns Sample.filtered ++ ["datetime"; "hour"])%list.
Proof.
  split; [reflexivity |].
  split; [exact (sample_filtered_columns "datetime" (or_intror (or_introl eq_refl))) |].
  split; [exact (sample_filtered_columns "hour"
                   (or_intror (or_intror (or_introl eq_refl)))) |].
  destruct (histogram_extends_filtered_frame (rt := Sample.runtime) Sample.store
              1%nat Sample.filtered [1700000000123; 1700003600000] eq_refl
              (sample_filtered_columns "time" (or_introl eq_refl))
              (sample_filtered_columns "datetime" (or_intror (or_introl eq_refl)))
              (sample_filtered_columns "hour"
                 (or_intror (or_intror (or_introl eq_refl))))
              sample_filtered_not_empty sample_stamped)
    as (f' & Hf' & Hcols & _).
  exists f'. split; [exact Hf' | exact Hcols].
Defined.

Lemma script_stops_without_events_witness :
  rows (fetched_frame (rt := Sample.runtime) (Raise Timeout)) = [] /\
  script (rt := Sample.runtime) (Raise Timeout) Sample.default_min_mag initial_state =
    (Raise KeyError, {| heap := [DataFrame_empty]; ui := [st_error Timeout] |}).
Proof.
  split; [reflexivity |].
  exact (script_stops_without_events (rt := Sample.runtime) (Raise Timeout)
           Sample.default_min_mag initial_state eq_refl).
Defined.

Lemma sample_epoch_times (item : value) :
  In item [Sample.quake_a; Sample.quake_null; Sample.quake_c; Sample.quake_d] ->
  has_magnitude item = true -> epoch_time item.
Proof.
  intros [<- | [<- | [<- | [<- | []]]]] _.
  - exists 1700000000123. repeat split; reflexivity.
  - exists 1700000100000. repeat split; reflexivity.
  - exists 1700003600000. repeat split; reflexivity.
  - exists 1700000050000. repeat split; reflexivity.
Defined.

Lemma script_completes_witness :
  rows (fetched_frame (rt := Sample.runtime) Sample.feed) <> [] /\
  exists f top table hourly_counts s',
    rows f = filter (passes Sample.default_min_mag)
               (rows (fetched_frame (rt := Sample.runtime) Sample.feed)) /\
    script (rt := Sample.runtime) Sample.feed Sample.default_min_mag initial_state =
      (Ok (0%nat, 1%nat, if empty f then None else Some hourly_counts), s') /\
    ui s' = page Sample.default_min_mag f top table hourly_counts.
Proof.
  split; [exact sample_frame_not_empty |].
  destruct (script_completes (rt := Sample.runtime)
              {| status_code := 200;
                 json := Ok (Sample.document [Sample.quake_a; Sample.quake_null;
                                              Sample.quake_c; Sample.quake_d]) |}
              _ _ Sample.default_min_mag initial_state eq_refl eq_refl
              sample_epoch_times sample_frame_not_empty)
    as (f & top & table & hourly_counts & s' & _ & Hrows & _ & _ & Hrun & Hui).
  exists f, top, table, hourly_counts, s'.
  split; [exact Hrows |]. split; [exact Hrun | exact Hui].
Defined.

(** ** The model on examples *)

Example strftime_epoch : Timestamp.strftime_Ymd_HM 0 = "1970-01-01 00:00".
Proof. reflexivity. Qed.
Example strftime_sample : Timestamp.strftime_Ymd_HM 1700000000123 = "2023-11-14 22:13".
Proof. reflexivity. Qed.
Example strftime_before_epoch : Timestamp.strftime_Ymd_HM (-1) = "1969-12-31 23:59".
Proof. reflexivity. Qed.
Example strftime_min : Timestamp.strftime_Ymd_HM Timestamp.ms_min = "1677-09-21 00:12".
Proof. reflexivity. Qed.
Example strftime_max : Timestamp.strftime_Ymd_HM Timestamp.ms_max = "2262-04-11 23:47".
Proof. reflexivity. Qed.
Example parse_sample : Timestamp.parse_Ymd_HM "2023-11-14 22:13" = Some 1699999980000.
Proof. reflexivity. Qed.
Example parse_min : Timestamp.parse_Ymd_HM "1677-09-21 00:12" = None.
Proof. reflexivity. Qed.
Example parse_leap : Timestamp.parse_Ymd_HM "2023-02-29 22:13" = None.
Proof. reflexivity. Qed.
